(** * Alkosto wait optimizer: the estimation engine of [index.ts]

    A shallow embedding of the TypeScript engine and the properties its
    specification states about it.

    Modelling conventions.
    - A JavaScript [number] is a real number ([R]): arithmetic is exact, so
      no statement below speaks about IEEE-754 rounding error, infinities or
      NaN.  The only rounding in the model is the one the code performs
      itself, [round], which is kept as written ([Math.round] is
      [floor (x + 1/2)]).
    - An optional field ([?], [| null]) is an [option]; [??] is [nullish].
    - [assert] / [throw new Error] is the [Err] case of [result], carrying
      the message of the source.
    - [Date.parse] is a host built-in: it is a parameter [Date_parse] of the
      timestamp mode, returning [None] where the host returns [NaN] and the
      epoch milliseconds otherwise.
    - The free-text fields of the output ([assumptions], [decision_rule],
      [rationale]) are constants or number formatting and are left out of
      [Output]. *)

From Stdlib Require Import Reals Lra Lia ZArith List String Ascii Bool Sorted.
From Equations Require Import Equations.
Import ListNotations.

(** * Part I: the engine *)

(** ** Errors *)

Inductive result (A : Type) : Type :=
| Ok (value : A)
| Err (message : string).
Arguments Ok {A} value.
Arguments Err {A} message.

Definition bind {A B : Type} (r : result A) (k : A -> result B) : result B :=
  match r with
  | Ok a => k a
  | Err m => Err m
  end.

Declare Scope result_scope.
Delimit Scope result_scope with result.
Notation "x <- r ;; k" := (bind r (fun x => k))
  (at level 61, r at next level, right associativity) : result_scope.
Notation "r ;;; k" := (bind r (fun _ => k))
  (at level 61, right associativity) : result_scope.

Definition assert (condition : bool) (message : string) : result unit :=
  if condition then Ok tt else Err message.

Definition isOk {A : Type} (r : result A) : Prop :=
  match r with Ok _ => True | Err _ => False end.

Definition isErr {A : Type} (r : result A) : Prop :=
  match r with Ok _ => False | Err _ => True end.

(** [a ?? b] *)
Definition nullish {A : Type} (o : option A) (default : A) : A :=
  match o with
  | Some v => v
  | None => default
  end.

(** ** Numbers *)

Open Scope R_scope.

(** The comparisons [<], [<=] and [===] of the source, as booleans. *)
Module Num.

Definition ltb (x y : R) : bool := if Rlt_dec x y then true else false.

Definition leb (x y : R) : bool := if Rle_dec x y then true else false.

Definition eqb (x y : R) : bool := if Req_dec_T x y then true else false.

End Num.

Definition EPSILON : R := 1e-9.

(** [Math.round]: the nearest integer, ties towards plus infinity. *)
Definition Math_round (x : R) : R := IZR (Int_part (x + 1 / 2)).

Definition clamp (value low high : R) : R := Rmax low (Rmin high value).

(** The default [decimals = 2] of the source is written out at each call. *)
Definition round (value : R) (decimals : nat) : R :=
  let factor := 10 ^ decimals in
  Math_round (value * factor) / factor.

(** [values.reduce((acc, value) => acc + value, 0)] *)
Definition sum (values : list R) : R :=
  fold_left (fun acc value => acc + value) values 0.

Definition mean (values : list R) : result R :=
  (assert (Nat.ltb 0 (List.length values))
     "No se puede calcular promedio de lista vacia." ;;;
   Ok (sum values / INR (List.length values)))%result.

Definition sampleStd (values : list R) : result R :=
  if Nat.ltb (List.length values) 2 then Ok 0
  else
    (m <- mean values ;;
     let variance :=
       fold_left (fun acc value => acc + (value - m) ^ 2) values 0
       / (INR (List.length values) - 1) in
     Ok (sqrt variance))%result.

(** ** Data model *)

Inductive Mode := mode_purchase_rate | mode_winner_timestamps.

Inductive PurchaseModel := global | per_lane.

Inductive CadenceModel := regular | mixed | random.

Record Inputs := {
  mode : Mode;
  is_weekend_or_holiday : option bool;
  model : option PurchaseModel;
  observed_purchases : option R;
  observed_minutes : option R;
  observed_lanes : option R;
  total_open_lanes : option R;
  winner_timestamps : option (list string);
  elapsed_since_last_winner_minutes : option R;
  target_hit_probability : option R;
  confidence_buffer : option R;
  max_wait_minutes : option R;
  time_value_per_minute : option R;
  expected_bonus_value : option R
}.

Record WaitEstimates := {
  mean_interval_between_winners : R;
  expected_wait_to_next_winner : R;
  p50_wait_to_next_winner : R;
  p75_wait_to_next_winner : R;
  p90_wait_to_next_winner : R
}.

Record Rates := {
  purchases_per_minute_observed : R;
  purchases_per_minute_estimated : R;
  purchases_per_minute_conservative : R;
  lane_scale_factor : R
}.

Record CadenceAnalysis := {
  intervals_minutes : list R;
  interval_mean_minutes : R;
  interval_std_minutes : R;
  interval_cv : R;
  cadence_model : CadenceModel
}.

Record Recommendation := {
  optimal_wait_minutes : R;
  probability_next_winner_within_optimal_wait : R
}.

Record Economics := {
  expected_value_for_optimal_wait : R;
  expected_time_cost_for_optimal_wait : R;
  net_expected_value_for_optimal_wait : R;
  value_expected_per_minute : R;
  break_even_wait_minutes : R
}.

Record Output := {
  out_mode : Mode;
  k_threshold_clients : option R;
  probability_win_per_attempt : option R;
  rates : option Rates;
  cadence_analysis : option CadenceAnalysis;
  wait_estimates_minutes : WaitEstimates;
  recommendation : Recommendation;
  economics : option Economics
}.

(** ** Wait distributions *)

Definition thresholdFromDay (isWeekendOrHoliday : bool) : R :=
  if isWeekendOrHoliday then 50 else 25.

Definition uniformWaitStats (intervalMinutes : R) : WaitEstimates :=
  let t := Rmax intervalMinutes 0 in
  {| mean_interval_between_winners := round t 2;
     expected_wait_to_next_winner := round (0.5 * t) 2;
     p50_wait_to_next_winner := round (0.5 * t) 2;
     p75_wait_to_next_winner := round (0.75 * t) 2;
     p90_wait_to_next_winner := round (0.9 * t) 2 |}.

Definition expWaitStats (meanIntervalMinutes : R) : WaitEstimates :=
  let m := Rmax meanIntervalMinutes EPSILON in
  {| mean_interval_between_winners := round m 2;
     expected_wait_to_next_winner := round m 2;
     p50_wait_to_next_winner := round (- m * ln (1 - 0.5)) 2;
     p75_wait_to_next_winner := round (- m * ln (1 - 0.75)) 2;
     p90_wait_to_next_winner := round (- m * ln (1 - 0.9)) 2 |}.

Definition probabilityWithinUniform (interval wait : R) : R :=
  if Num.leb interval 0 then 1 else clamp (wait / interval) 0 1.

Definition probabilityWithinExponential (meanInterval wait : R) : R :=
  if Num.leb meanInterval 0 then 1 else 1 - exp (- wait / meanInterval).

(** ** Economics overlay *)

(** [withEconomics] assigns [output.economics] in place; here it returns the
    updated output.  [typeof x !== "number"] is the [None] case. *)
Definition withEconomics (output : Output)
    (expectedBonusValue timeValuePerMinute : option R)
    (probabilityWithinWait meanInterval maxWait : R) : Output :=
  match expectedBonusValue, timeValuePerMinute with
  | Some bonus, Some timeValue =>
      if Num.ltb bonus 0 || Num.ltb timeValue 0 then output
      else
        let wait := optimal_wait_minutes (recommendation output) in
        let expectedValue := probabilityWithinWait * bonus in
        let timeCost := wait * timeValue in
        let netValue := expectedValue - timeCost in
        let valuePerMinute := bonus / Rmax meanInterval EPSILON in
        let breakEvenWait :=
          if Num.eqb timeValue 0 then maxWait
          else clamp (bonus / timeValue) 0 maxWait in
        {| out_mode := out_mode output;
           k_threshold_clients := k_threshold_clients output;
           probability_win_per_attempt := probability_win_per_attempt output;
           rates := rates output;
           cadence_analysis := cadence_analysis output;
           wait_estimates_minutes := wait_estimates_minutes output;
           recommendation := recommendation output;
           economics := Some
             {| expected_value_for_optimal_wait := round expectedValue 2;
                expected_time_cost_for_optimal_wait := round timeCost 2;
                net_expected_value_for_optimal_wait := round netValue 2;
                value_expected_per_minute := round valuePerMinute 2;
                break_even_wait_minutes := round breakEvenWait 2 |} |}
  | _, _ => output
  end.

(** ** Locals shared by the two modes *)

Definition maxWait (inputs : Inputs) : R :=
  Rmax (nullish (max_wait_minutes inputs) 30) 1.

Definition probabilityTarget (inputs : Inputs) : R :=
  clamp (nullish (target_hit_probability inputs) 0.75) 0.5 0.99.

(** [typeof x === "number" && x > 0], yielding the number *)
Definition positiveNumber (x : option R) (message : string) : result R :=
  match x with
  | Some v => if Num.ltb 0 v then Ok v else Err message
  | None => Err message
  end.

Definition required {A : Type} (x : option A) (message : string) : result A :=
  match x with
  | Some v => Ok v
  | None => Err message
  end.

(** ** Mode A: purchase_rate *)

(** The locals of [runPurchaseRateMode] after its assertions, under their
    names in the source; [result_] is the source's [result]. *)
Module PurchaseRate.

Section Locals.

Variable inputs : Inputs.
Variable isWeekendOrHoliday : bool.
Variable purchaseModel : PurchaseModel.
Variables observedPurchases observedMinutes observedLanes : R.

Definition confidenceBuffer : R :=
  clamp (nullish (confidence_buffer inputs) 0.2) 0 0.9.

Definition kThreshold : R := thresholdFromDay isWeekendOrHoliday.

Definition lambdaObserved : R := observedPurchases / observedMinutes.

Definition laneScale : R :=
  match purchaseModel, total_open_lanes inputs with
  | global, Some total =>
      if Num.leb observedLanes total then total / observedLanes else 1
  | _, _ => 1
  end.

Definition lambdaEstimated : R :=
  match purchaseModel with
  | global => lambdaObserved * laneScale
  | per_lane => lambdaObserved / observedLanes
  end.

Definition lambdaConservative : R := lambdaEstimated * (1 - confidenceBuffer).

Definition meanInterval : R := kThreshold / Rmax lambdaConservative EPSILON.

Definition waitStats : WaitEstimates := uniformWaitStats meanInterval.

Definition waitForTarget : R := meanInterval * probabilityTarget inputs.

Definition optimalWait : R := clamp waitForTarget 1 (maxWait inputs).

Definition probabilityWithinOptimal : R :=
  probabilityWithinUniform meanInterval optimalWait.

Definition result_ : Output :=
  {| out_mode := mode_purchase_rate;
     k_threshold_clients := Some kThreshold;
     probability_win_per_attempt := Some (round (1 / kThreshold) 4);
     rates := Some
       {| purchases_per_minute_observed := round lambdaObserved 2;
          purchases_per_minute_estimated := round lambdaEstimated 2;
          purchases_per_minute_conservative := round lambdaConservative 2;
          lane_scale_factor := round laneScale 2 |};
     cadence_analysis := None;
     wait_estimates_minutes := waitStats;
     recommendation :=
       {| optimal_wait_minutes := round optimalWait 2;
          probability_next_winner_within_optimal_wait :=
            round probabilityWithinOptimal 4 |};
     economics := None |}.

Definition output : Output :=
  withEconomics result_
    (expected_bonus_value inputs) (time_value_per_minute inputs)
    probabilityWithinOptimal meanInterval (maxWait inputs).

End Locals.

End PurchaseRate.

Definition runPurchaseRateMode (inputs : Inputs) : result Output :=
  (isWeekendOrHoliday <-
     required (is_weekend_or_holiday inputs)
       "is_weekend_or_holiday es obligatorio en mode=purchase_rate." ;;
   purchaseModel <- required (model inputs) "model invalido." ;;
   observedPurchases <-
     positiveNumber (observed_purchases inputs) "observed_purchases debe ser > 0." ;;
   observedMinutes <-
     positiveNumber (observed_minutes inputs) "observed_minutes debe ser > 0." ;;
   observedLanes <-
     positiveNumber (observed_lanes inputs) "observed_lanes debe ser > 0." ;;
   Ok (PurchaseRate.output inputs isWeekendOrHoliday purchaseModel
         observedPurchases observedMinutes observedLanes))%result.

(** ** Timestamps *)

Open Scope Z_scope.

(** [\d] *)
Definition isDigit (c : ascii) : bool :=
  (48 <=? Z.of_nat (nat_of_ascii c)) && (Z.of_nat (nat_of_ascii c) <=? 57).

Definition isColon (c : ascii) : bool := Ascii.eqb c ":"%char.

(** [Number(s)] on a string of decimal digits *)
Definition Number (digits : list ascii) : Z :=
  fold_left (fun acc c => 10 * acc + (Z.of_nat (nat_of_ascii c) - 48)) digits 0.

(** [timestamp.match(HMS_RE)] with
    [HMS_RE = /^(\d{1,2}):(\d{2})(?::(\d{2}))?$/]: the three capture
    groups, the third being optional. *)
Definition matchHMS_RE (timestamp : string)
  : option (list ascii * list ascii * option (list ascii)) :=
  let afterHour (hour rest : list ascii) :=
    match rest with
    | [m1; m2] =>
        if isDigit m1 && isDigit m2 then Some (hour, [m1; m2], None) else None
    | [m1; m2; c; s1; s2] =>
        if isDigit m1 && isDigit m2 && isColon c && isDigit s1 && isDigit s2
        then Some (hour, [m1; m2], Some [s1; s2])
        else None
    | _ => None
    end in
  match list_ascii_of_string timestamp with
  | h1 :: c2 :: rest =>
      if isDigit h1 && isColon c2 then afterHour [h1] rest
      else
        match rest with
        | c3 :: rest' =>
            if isDigit h1 && isDigit c2 && isColon c3
            then afterHour [h1; c2] rest'
            else None
        | [] => None
        end
  | _ => None
  end.

(** The [Number.isNaN] and [< 0] tests of the source cannot succeed on
    digit strings; the range tests that can are the upper bounds. *)
Definition parseHmsToSeconds (timestamp : string) : option Z :=
  match matchHMS_RE timestamp with
  | None => None
  | Some (g1, g2, g3) =>
      let hour := Number g1 in
      let minute := Number g2 in
      let second := match g3 with Some g => Number g | None => Number ["0"%char] end in
      if (hour <? 0) || (23 <? hour) || (minute <? 0) || (59 <? minute)
         || (second <? 0) || (59 <? second)
      then None
      else Some (hour * 3600 + minute * 60 + second)
  end.

(** [while (candidate <= current) candidate += 24 * 3600] *)
Equations? rollover (candidate current : Z) : Z
  by wf (Z.to_nat (current - candidate + 1)) lt :=
  rollover candidate current with Z_le_gt_dec candidate current => {
    | left _ := rollover (candidate + 24 * 3600) current;
    | right _ := candidate }.
Proof. lia. Qed.

(** The body of the [for] loop over [hmsSeconds[1..]], [current] being the
    last value pushed. *)
Fixpoint absoluteSecondsFrom (current : Z) (rest : list Z) : list Z :=
  match rest with
  | [] => []
  | raw :: rest' =>
      let candidate := rollover raw current in
      candidate :: absoluteSecondsFrom candidate rest'
  end.

Definition absoluteSeconds (hmsSeconds : list Z) : list Z :=
  match hmsSeconds with
  | [] => []
  | first :: rest => first :: absoluteSecondsFrom first rest
  end.

(** [values.every(defined)], yielding the values *)
Fixpoint allDefined {A : Type} (values : list (option A)) : option (list A) :=
  match values with
  | [] => Some []
  | Some v :: rest =>
      match allDefined rest with
      | Some vs => Some (v :: vs)
      | None => None
      end
  | None :: _ => None
  end.

(** [parsed[i] > parsed[i - 1]] for every [i >= 1] *)
Fixpoint strictlyIncreasing (parsed : list Z) : bool :=
  match parsed with
  | prev :: ((next :: _) as rest) => (prev <? next) && strictlyIncreasing rest
  | _ => true
  end.

Close Scope Z_scope.

Fixpoint intervalsFromTimelineMinutes (timelineMinutes : list R) : list R :=
  match timelineMinutes with
  | prev :: ((next :: _) as rest) =>
      (next - prev) :: intervalsFromTimelineMinutes rest
  | _ => []
  end.

Section Host.

(** The host's [Date.parse]: [None] for [NaN], else epoch milliseconds. *)
Variable Date_parse : string -> option Z.

Definition parseTimestampsToMonotonicMinutes (timestamps : list string)
  : result (list R) :=
  (assert (Nat.leb 2 (List.length timestamps))
     "Necesitas al menos 2 timestamps para estimar intervalos." ;;;
   match allDefined (map parseHmsToSeconds timestamps) with
   | Some hmsSeconds =>
       Ok (map (fun seconds => IZR seconds / 60) (absoluteSeconds hmsSeconds))
   | None =>
       match allDefined (map Date_parse timestamps) with
       | None =>
           Err "Formato de timestamp invalido. Usa HH:MM[:SS] o ISO datetime."
       | Some parsed =>
           assert (strictlyIncreasing parsed)
             "Los timestamps ISO deben venir ordenados de menor a mayor." ;;;
           Ok (map (fun value => IZR value / 60000) parsed)
       end
   end)%result.

End Host.

(** ** Mode B: winner_timestamps *)

Module WinnerTimestamps.

Section Locals.

Variable inputs : Inputs.
Variable intervals : list R.
Variables intervalMean intervalStd : R.

Definition elapsed : R :=
  Rmax (nullish (elapsed_since_last_winner_minutes inputs) 0) 0.

Definition intervalCv : R := intervalStd / Rmax intervalMean EPSILON.

Definition cadenceModel : CadenceModel :=
  if Num.ltb intervalCv 0.4 then regular
  else if Num.ltb 0.7 intervalCv then random
  else mixed.

Definition regularRemaining : R := Rmax (intervalMean - elapsed) 0.

Definition randomExpectedRemaining : R := intervalMean.

Definition waitStatsRegular : WaitEstimates :=
  {| mean_interval_between_winners := round intervalMean 2;
     expected_wait_to_next_winner := round regularRemaining 2;
     p50_wait_to_next_winner := round regularRemaining 2;
     p75_wait_to_next_winner := round regularRemaining 2;
     p90_wait_to_next_winner := round regularRemaining 2 |}.

Definition waitStatsRandom : WaitEstimates := expWaitStats intervalMean.

Definition waitStats : WaitEstimates :=
  match cadenceModel with
  | regular => waitStatsRegular
  | random => waitStatsRandom
  | mixed =>
      {| mean_interval_between_winners := round intervalMean 2;
         expected_wait_to_next_winner :=
           round ((expected_wait_to_next_winner waitStatsRegular
                   + randomExpectedRemaining) / 2) 2;
         p50_wait_to_next_winner :=
           round ((p50_wait_to_next_winner waitStatsRegular
                   + p50_wait_to_next_winner waitStatsRandom) / 2) 2;
         p75_wait_to_next_winner :=
           round ((p75_wait_to_next_winner waitStatsRegular
                   + p75_wait_to_next_winner waitStatsRandom) / 2) 2;
         p90_wait_to_next_winner :=
           round ((p90_wait_to_next_winner waitStatsRegular
                   + p90_wait_to_next_winner waitStatsRandom) / 2) 2 |}
  end.

Definition randomWaitForTarget : R :=
  - intervalMean * ln (1 - probabilityTarget inputs).

Definition mixedWaitForTarget : R :=
  (regularRemaining + randomWaitForTarget) / 2.

Definition optimalWait : R :=
  clamp
    match cadenceModel with
    | regular => regularRemaining
    | random => randomWaitForTarget
    | mixed => mixedWaitForTarget
    end
    0 (maxWait inputs).

Definition regularProbability : R :=
  if Num.leb regularRemaining EPSILON then 1
  else clamp (optimalWait / Rmax regularRemaining EPSILON) 0 1.

Definition randomProbability : R :=
  probabilityWithinExponential intervalMean optimalWait.

Definition probabilityWithinOptimal : R :=
  match cadenceModel with
  | regular => regularProbability
  | random => randomProbability
  | mixed => (regularProbability + randomProbability) / 2
  end.

Definition result_ : Output :=
  {| out_mode := mode_winner_timestamps;
     k_threshold_clients :=
       option_map thresholdFromDay (is_weekend_or_holiday inputs);
     probability_win_per_attempt :=
       option_map (fun isWeekendOrHoliday =>
                     round (1 / thresholdFromDay isWeekendOrHoliday) 4)
         (is_weekend_or_holiday inputs);
     rates := None;
     cadence_analysis := Some
       {| intervals_minutes := map (fun value => round value 2) intervals;
          interval_mean_minutes := round intervalMean 2;
          interval_std_minutes := round intervalStd 2;
          interval_cv := round intervalCv 2;
          cadence_model := cadenceModel |};
     wait_estimates_minutes := waitStats;
     recommendation :=
       {| optimal_wait_minutes := round optimalWait 2;
          probability_next_winner_within_optimal_wait :=
            round probabilityWithinOptimal 4 |};
     economics := None |}.

Definition output : Output :=
  withEconomics result_
    (expected_bonus_value inputs) (time_value_per_minute inputs)
    probabilityWithinOptimal intervalMean (maxWait inputs).

End Locals.

End WinnerTimestamps.

Section Engine.

Variable Date_parse : string -> option Z.

Definition runWinnerTimestampsMode (inputs : Inputs) : result Output :=
  (winnerTimestamps <-
     match winner_timestamps inputs with
     | Some timestamps =>
         assert (Nat.leb 2 (List.length timestamps))
           "winner_timestamps debe tener al menos 2 elementos en mode=winner_timestamps." ;;;
         Ok timestamps
     | None =>
         Err "winner_timestamps debe tener al menos 2 elementos en mode=winner_timestamps."
     end ;;
   timeline <- parseTimestampsToMonotonicMinutes Date_parse winnerTimestamps ;;
   let intervals := intervalsFromTimelineMinutes timeline in
   intervalMean <- mean intervals ;;
   intervalStd <- sampleStd intervals ;;
   Ok (WinnerTimestamps.output inputs intervals intervalMean intervalStd))%result.

(** [mode] has exactly the two values of the source's type [Mode]; the
    final [throw] of the source is unreachable for a typed input. *)
Definition run (inputs : Inputs) : result Output :=
  match mode inputs with
  | mode_purchase_rate => runPurchaseRateMode inputs
  | mode_winner_timestamps => runWinnerTimestampsMode inputs
  end.

End Engine.

(** ** Valid inputs *)

(** The two messages of the date-time branch of
    [parseTimestampsToMonotonicMinutes]. *)
Definition invalidFormat : string :=
  "Formato de timestamp invalido. Usa HH:MM[:SS] o ISO datetime.".

Definition unorderedDates : string :=
  "Los timestamps ISO deben venir ordenados de menor a mayor.".

(** The input passes the five assertions of [runPurchaseRateMode], with the
    values they extract. *)
Record ValidPurchaseRate (inputs : Inputs) (isWeekendOrHoliday : bool)
    (purchaseModel : PurchaseModel)
    (observedPurchases observedMinutes observedLanes : R) : Prop := {
  valid_day : is_weekend_or_holiday inputs = Some isWeekendOrHoliday;
  valid_model : model inputs = Some purchaseModel;
  valid_purchases : observed_purchases inputs = Some observedPurchases;
  valid_purchases_pos : 0 < observedPurchases;
  valid_minutes : observed_minutes inputs = Some observedMinutes;
  valid_minutes_pos : 0 < observedMinutes;
  valid_lanes : observed_lanes inputs = Some observedLanes;
  valid_lanes_pos : 0 < observedLanes
}.

(** The timestamps pass the checks of [runWinnerTimestampsMode] and of
    [parseTimestampsToMonotonicMinutes]: at least two entries, and either
    every entry is a bare time of day, or every entry is a date-time of the
    host and the date-times increase strictly. *)
Record ValidTimestamps (Date_parse : string -> option Z) (inputs : Inputs)
    (timestamps : list string) : Prop := {
  valid_timestamps : winner_timestamps inputs = Some timestamps;
  valid_count : (2 <= List.length timestamps)%nat;
  valid_format :
    (exists hmsSeconds,
        allDefined (map parseHmsToSeconds timestamps) = Some hmsSeconds) \/
    (exists parsed,
        allDefined (map Date_parse timestamps) = Some parsed /\
        Sorted Z.lt parsed)
}.

Definition ValidInput (Date_parse : string -> option Z) (inputs : Inputs) : Prop :=
  match mode inputs with
  | mode_purchase_rate =>
      exists b m p mi l, ValidPurchaseRate inputs b m p mi l
  | mode_winner_timestamps =>
      exists timestamps, ValidTimestamps Date_parse inputs timestamps
  end.

(** What a successful run of mode B computes on the way: the intervals of
    the timeline, their mean and their sample standard deviation. *)
Record CadenceRun (Date_parse : string -> option Z) (inputs : Inputs)
    (intervals : list R) (intervalMean intervalStd : R) : Prop := {
  run_intervals :
    exists timestamps timeline,
      winner_timestamps inputs = Some timestamps /\
      parseTimestampsToMonotonicMinutes Date_parse timestamps = Ok timeline /\
      intervals = intervalsFromTimelineMinutes timeline;
  run_mean : mean intervals = Ok intervalMean;
  run_std : sampleStd intervals = Ok intervalStd;
  run_mean_pos : 0 < intervalMean;
  run_std_nonneg : 0 <= intervalStd;
  run_output :
    runWinnerTimestampsMode Date_parse inputs =
    Ok (WinnerTimestamps.output inputs intervals intervalMean intervalStd)
}.

(** The lower end of the clamp that each mode applies to its wait. *)
Definition waitLowerBound (m : Mode) : R :=
  match m with
  | mode_purchase_rate => 1
  | mode_winner_timestamps => 0
  end.

Definition nonnegativeWaits (w : WaitEstimates) : Prop :=
  0 <= mean_interval_between_winners w /\
  0 <= expected_wait_to_next_winner w /\
  0 <= p50_wait_to_next_winner w /\
  0 <= p75_wait_to_next_winner w /\
  0 <= p90_wait_to_next_winner w.

(** The monetary inputs that switch the economics overlay on. *)
Definition economicsSupplied (inputs : Inputs) (bonus timeValue : R) : Prop :=
  expected_bonus_value inputs = Some bonus /\
  time_value_per_minute inputs = Some timeValue /\
  0 <= bonus /\ 0 <= timeValue.

(** ** Sample inputs *)

(** Scenario 1 of the specification. *)
Definition scenario1 : Inputs :=
  {| mode := mode_purchase_rate;
     is_weekend_or_holiday := Some true;
     model := Some global;
     observed_purchases := Some 5;
     observed_minutes := Some 2;
     observed_lanes := Some 5;
     total_open_lanes := Some 15;
     winner_timestamps := None;
     elapsed_since_last_winner_minutes := None;
     target_hit_probability := Some 0.75;
     confidence_buffer := Some 0.2;
     max_wait_minutes := Some 30;
     time_value_per_minute := None;
     expected_bonus_value := None |}.

(** A weekday observation of one purchase in one minute on one lane. *)
Definition weekdaySingleLane
    (maxWaitMinutes target bonus timeValue : option R) : Inputs :=
  {| mode := mode_purchase_rate;
     is_weekend_or_holiday := Some false;
     model := Some global;
     observed_purchases := Some 1;
     observed_minutes := Some 1;
     observed_lanes := Some 1;
     total_open_lanes := None;
     winner_timestamps := None;
     elapsed_since_last_winner_minutes := None;
     target_hit_probability := target;
     confidence_buffer := None;
     max_wait_minutes := maxWaitMinutes;
     time_value_per_minute := timeValue;
     expected_bonus_value := bonus |}.

(** An input of mode B that sets only the timestamps, the elapsed minutes
    and the cap on the wait. *)
Definition announcements (timestamps : list string)
    (elapsedMinutes maxWaitMinutes : option R) : Inputs :=
  {| mode := mode_winner_timestamps;
     is_weekend_or_holiday := None;
     model := None;
     observed_purchases := None;
     observed_minutes := None;
     observed_lanes := None;
     total_open_lanes := None;
     winner_timestamps := Some timestamps;
     elapsed_since_last_winner_minutes := elapsedMinutes;
     target_hit_probability := None;
     confidence_buffer := None;
     max_wait_minutes := maxWaitMinutes;
     time_value_per_minute := None;
     expected_bonus_value := None |}.

(** Winners announced at 10:00, 10:10 and 10:30. *)
Definition threeAnnouncements (maxWaitMinutes : option R) : Inputs :=
  announcements ["10:00"; "10:10"; "10:30"]%string None maxWaitMinutes.

Definition threeAnnouncements_timeline : list R :=
  map (fun seconds => IZR seconds / 60) [36000; 36600; 37800]%Z.

(** Scenario 2 of the specification. *)
Definition scenario2 : Inputs :=
  {| mode := mode_winner_timestamps;
     is_weekend_or_holiday := None;
     model := None;
     observed_purchases := None;
     observed_minutes := None;
     observed_lanes := None;
     total_open_lanes := None;
     winner_timestamps :=
       Some ["12:10:15"; "12:27:40"; "12:46:05"; "13:02:20"]%string;
     elapsed_since_last_winner_minutes := Some 6;
     target_hit_probability := Some 0.75;
     confidence_buffer := None;
     max_wait_minutes := Some 30;
     time_value_per_minute := None;
     expected_bonus_value := None |}.

Definition scenario2_timeline : list R :=
  map (fun seconds => IZR seconds / 60) [43815; 44860; 45965; 46940]%Z.

(** A host whose [Date.parse] knows two date-times and rejects every other
    string; it instantiates the statements below on concrete inputs. *)
Definition sampleHost (timestamp : string) : option Z :=
  if String.eqb timestamp "2024-05-04T12:00:00Z" then Some 1714824000000%Z
  else if String.eqb timestamp "2024-05-04T12:10:00Z" then Some 1714824600000%Z
  else None.

(** One bare time of day followed by one date-time. *)
Definition mixedFormats : Inputs :=
  announcements ["12:10"; "2024-05-04T12:00:00Z"]%string None None.

(** Scenario 1 with no lane observed. *)
Definition scenario1_without_lanes : Inputs :=
  {| mode := mode_purchase_rate;
     is_weekend_or_holiday := Some true;
     model := Some global;
     observed_purchases := Some 5;
     observed_minutes := Some 2;
     observed_lanes := Some 0;
     total_open_lanes := Some 15;
     winner_timestamps := None;
     elapsed_since_last_winner_minutes := None;
     target_hit_probability := Some 0.75;
     confidence_buffer := Some 0.2;
     max_wait_minutes := Some 30;
     time_value_per_minute := None;
     expected_bonus_value := None |}.

(** Winners announced at 10:00, 10:01, 10:02 and 10:12. *)
Definition burstAnnouncements : Inputs :=
  announcements ["10:00"; "10:01"; "10:02"; "10:12"]%string None None.

Definition burstAnnouncements_timeline : list R :=
  map (fun seconds => IZR seconds / 60) [36000; 36060; 36120; 36720]%Z.

(** The wall-clock samples 23:58 and 00:05. *)
Definition midnightAnnouncements : Inputs :=
  announcements ["23:58"; "00:05"]%string None None.

(** * Part II: properties *)

(** ** The boolean comparisons decide the order of the reals *)

Module NumFacts.

Lemma ltb_true x y : Num.ltb x y = true <-> x < y.
Proof.
  unfold Num.ltb. destruct (Rlt_dec x y); split; intros; auto; discriminate.
Qed.

Lemma ltb_false x y : Num.ltb x y = false <-> y <= x.
Proof.
  unfold Num.ltb.
  destruct (Rlt_dec x y); split; intros; auto; try discriminate; lra.
Qed.

Lemma leb_true x y : Num.leb x y = true <-> x <= y.
Proof.
  unfold Num.leb. destruct (Rle_dec x y); split; intros; auto; discriminate.
Qed.

Lemma leb_false x y : Num.leb x y = false <-> y < x.
Proof.
  unfold Num.leb.
  destruct (Rle_dec x y); split; intros; auto; try discriminate; lra.
Qed.

Lemma eqb_true x y : Num.eqb x y = true <-> x = y.
Proof.
  unfold Num.eqb. destruct (Req_dec_T x y); split; intros; auto; discriminate.
Qed.

Lemma eqb_false x y : Num.eqb x y = false <-> x <> y.
Proof.
  unfold Num.eqb.
  destruct (Req_dec_T x y); split; intros; auto; try discriminate.
  contradiction.
Qed.

End NumFacts.

(** ** The parser on sample strings *)

Example rollover_example : rollover 300 86280 = 86700%Z.
Proof. reflexivity. Qed.

Example parseHms_example : parseHmsToSeconds "23:58" = Some 86280%Z.
Proof. reflexivity. Qed.
Example parseHms_example2 : parseHmsToSeconds "12:10:15" = Some 43815%Z.
Proof. reflexivity. Qed.
Example parseHms_example3 : parseHmsToSeconds "24:00" = None.
Proof. reflexivity. Qed.
Example parseHms_example4 : parseHmsToSeconds "2024-01-01T12:00:00Z" = None.
Proof. reflexivity. Qed.
Example parseHms_example5 : parseHmsToSeconds "7:05" = Some 25500%Z.
Proof. reflexivity. Qed.

Example parseHms_example6 : parseHmsToSeconds "12:3" = None.
Proof. reflexivity. Qed.

Example parseHms_example7 : parseHmsToSeconds "12:34:56 " = None.
Proof. reflexivity. Qed.

Example parseHms_example8 : parseHmsToSeconds "23:59:60" = None.
Proof. reflexivity. Qed.

Example absoluteSeconds_example :
  absoluteSeconds [86280; 300; 200]%Z = [86280; 86700; 173000]%Z.
Proof. reflexivity. Qed.

(** ** Rounding and clamping *)

Lemma Math_round_eq (x : R) (n : Z) :
  IZR n <= x + 1 / 2 < IZR n + 1 -> Math_round x = IZR n.
Proof.
  intros [Hlo Hhi]. unfold Math_round. f_equal. symmetry.
  apply Int_part_spec. lra.
Qed.

Lemma Math_round_bounds (x : R) : x - 1 / 2 < Math_round x <= x + 1 / 2.
Proof.
  unfold Math_round. destruct (base_Int_part (x + 1 / 2)). lra.
Qed.

Lemma Math_round_IZR (n : Z) : Math_round (IZR n) = IZR n.
Proof. apply Math_round_eq. lra. Qed.

Lemma Math_round_mono (x y : R) : x <= y -> Math_round x <= Math_round y.
Proof.
  intros Hxy. unfold Math_round. apply IZR_le.
  destruct (base_Int_part (x + 1 / 2)) as [Hx1 Hx2].
  destruct (base_Int_part (y + 1 / 2)) as [Hy1 Hy2].
  apply Z.lt_succ_r. apply lt_IZR. rewrite succ_IZR. lra.
Qed.

Lemma pow10_pos (d : nat) : 0 < 10 ^ d.
Proof. apply pow_lt. lra. Qed.

Lemma round_eq (x : R) (d : nat) (n : Z) :
  IZR n <= x * 10 ^ d + 1 / 2 < IZR n + 1 -> round x d = IZR n / 10 ^ d.
Proof.
  intros H. unfold round. cbv zeta. rewrite (Math_round_eq _ _ H). reflexivity.
Qed.

Lemma round_mono (x y : R) (d : nat) : x <= y -> round x d <= round y d.
Proof.
  intros Hxy. unfold round. cbv zeta.
  pose proof (pow10_pos d) as Hd.
  apply Rmult_le_compat_r.
  - left. apply Rinv_0_lt_compat. exact Hd.
  - apply Math_round_mono. apply Rmult_le_compat_r; lra.
Qed.

Lemma round_exact (n : Z) (d : nat) : round (IZR n / 10 ^ d) d = IZR n / 10 ^ d.
Proof.
  pose proof (pow10_pos d) as Hd.
  apply round_eq. unfold Rdiv. rewrite Rmult_assoc, Rinv_l by lra. lra.
Qed.

Lemma round_0 (d : nat) : round 0 d = 0.
Proof.
  pose proof (round_exact 0 d) as H. unfold Rdiv in H.
  rewrite Rmult_0_l in H. exact H.
Qed.

Lemma round_1 (d : nat) : round 1 d = 1.
Proof.
  pose proof (pow10_pos d) as Hd.
  pose proof (round_exact (10 ^ Z.of_nat d) d) as H.
  rewrite <- pow_IZR in H.
  replace (10 ^ d / 10 ^ d) with 1 in H by (field; lra).
  exact H.
Qed.

Lemma round_nonneg (x : R) (d : nat) : 0 <= x -> 0 <= round x d.
Proof. intros H. rewrite <- (round_0 d). apply round_mono. exact H. Qed.

Lemma round_ge_1 (x : R) (d : nat) : 1 <= x -> 1 <= round x d.
Proof.
  intros H. apply Rle_trans with (round 1 d).
  - rewrite round_1. lra.
  - apply round_mono. exact H.
Qed.

Lemma clamp_bounds (value low high : R) :
  low <= high -> low <= clamp value low high <= high.
Proof.
  intros H. unfold clamp. split.
  - apply Rmax_l.
  - apply Rmax_lub; [exact H | apply Rmin_l].
Qed.

Lemma clamp_inside (value low high : R) :
  low <= value <= high -> clamp value low high = value.
Proof.
  intros [H1 H2]. unfold clamp.
  rewrite Rmin_right by exact H2. apply Rmax_right. exact H1.
Qed.

Lemma clamp_above (value low high : R) :
  low <= high -> high <= value -> clamp value low high = high.
Proof.
  intros H1 H2. unfold clamp.
  rewrite Rmin_left by exact H2. apply Rmax_right. exact H1.
Qed.

Lemma EPSILON_pos : 0 < EPSILON.
Proof. unfold EPSILON. lra. Qed.

(** Decide the comparisons of the source once the ordering is known. *)
Ltac decide_num :=
  repeat first
    [ rewrite (proj2 (NumFacts.ltb_true _ _)) by lra
    | rewrite (proj2 (NumFacts.ltb_false _ _)) by lra
    | rewrite (proj2 (NumFacts.leb_true _ _)) by lra
    | rewrite (proj2 (NumFacts.leb_false _ _)) by lra
    | rewrite (proj2 (NumFacts.eqb_true _ _)) by lra
    | rewrite (proj2 (NumFacts.eqb_false _ _)) by lra ].

(** ** The validator of mode A *)

Lemma positiveNumber_Ok (x : option R) (message : string) (v : R) :
  positiveNumber x message = Ok v <-> x = Some v /\ 0 < v.
Proof.
  unfold positiveNumber. destruct x as [w|].
  - destruct (Num.ltb 0 w) eqn:E.
    + apply NumFacts.ltb_true in E. split.
      * intros H. inversion H. subst. auto.
      * intros [H _]. inversion H. reflexivity.
    + apply NumFacts.ltb_false in E. split.
      * discriminate.
      * intros [H Hpos]. inversion H. subst. lra.
  - split; [discriminate | intros [H _]; discriminate].
Qed.

Lemma runPurchaseRateMode_valid inputs b m p mi l :
  ValidPurchaseRate inputs b m p mi l ->
  runPurchaseRateMode inputs = Ok (PurchaseRate.output inputs b m p mi l).
Proof.
  intros [Hd Hm Hp Hp0 Hmi Hmi0 Hl Hl0]. unfold runPurchaseRateMode.
  rewrite Hd, Hm. simpl.
  rewrite (proj2 (positiveNumber_Ok _ _ p)) by auto. simpl.
  rewrite (proj2 (positiveNumber_Ok _ _ mi)) by auto. simpl.
  rewrite (proj2 (positiveNumber_Ok _ _ l)) by auto. reflexivity.
Qed.

Lemma runPurchaseRateMode_Ok inputs o :
  runPurchaseRateMode inputs = Ok o ->
  exists b m p mi l,
    ValidPurchaseRate inputs b m p mi l /\
    o = PurchaseRate.output inputs b m p mi l.
Proof.
  unfold runPurchaseRateMode.
  destruct (is_weekend_or_holiday inputs) as [b|] eqn:Hd; [|discriminate].
  destruct (model inputs) as [m|] eqn:Hm; [|discriminate]. simpl.
  destruct (positiveNumber (observed_purchases inputs) _) as [p|] eqn:Hp;
    [|discriminate]. simpl.
  destruct (positiveNumber (observed_minutes inputs) _) as [mi|] eqn:Hmi;
    [|discriminate]. simpl.
  destruct (positiveNumber (observed_lanes inputs) _) as [l|] eqn:Hl;
    [|discriminate]. simpl.
  intros H. inversion H.
  apply positiveNumber_Ok in Hp, Hmi, Hl.
  exists b, m, p, mi, l. split; [|reflexivity].
  constructor; tauto.
Qed.

(** ** Facts about the locals of mode A *)

Lemma maxWait_ge_1 inputs : 1 <= maxWait inputs.
Proof. unfold maxWait. apply Rmax_r. Qed.

Lemma probabilityTarget_bounds inputs :
  0.5 <= probabilityTarget inputs <= 0.99.
Proof. unfold probabilityTarget. apply clamp_bounds. lra. Qed.

Lemma kThreshold_pos b : 0 < PurchaseRate.kThreshold b.
Proof. unfold PurchaseRate.kThreshold, thresholdFromDay. destruct b; lra. Qed.

Lemma meanInterval_pos inputs b m p mi l :
  0 < PurchaseRate.meanInterval inputs b m p mi l.
Proof.
  unfold PurchaseRate.meanInterval. apply Rdiv_lt_0_compat.
  - apply kThreshold_pos.
  - apply Rlt_le_trans with EPSILON; [apply EPSILON_pos | apply Rmax_r].
Qed.

(** ** [withEconomics] only adds the [economics] block *)

Lemma withEconomics_preserves output bonus timeValue probability interval maxW :
  let output' :=
    withEconomics output bonus timeValue probability interval maxW in
  out_mode output' = out_mode output /\
  k_threshold_clients output' = k_threshold_clients output /\
  probability_win_per_attempt output' = probability_win_per_attempt output /\
  rates output' = rates output /\
  cadence_analysis output' = cadence_analysis output /\
  wait_estimates_minutes output' = wait_estimates_minutes output /\
  recommendation output' = recommendation output.
Proof.
  unfold withEconomics.
  destruct bonus as [bonus|], timeValue as [timeValue|]; simpl; try tauto.
  destruct (Num.ltb bonus 0 || Num.ltb timeValue 0); simpl; tauto.
Qed.

Lemma PurchaseRate_output_rates inputs b m p mi l :
  rates (PurchaseRate.output inputs b m p mi l) =
  rates (PurchaseRate.result_ inputs b m p mi l).
Proof. apply withEconomics_preserves. Qed.

Lemma PurchaseRate_output_waits inputs b m p mi l :
  wait_estimates_minutes (PurchaseRate.output inputs b m p mi l) =
  PurchaseRate.waitStats inputs b m p mi l.
Proof.
  unfold PurchaseRate.output.
  destruct (withEconomics_preserves
              (PurchaseRate.result_ inputs b m p mi l)
              (expected_bonus_value inputs) (time_value_per_minute inputs)
              (PurchaseRate.probabilityWithinOptimal inputs b m p mi l)
              (PurchaseRate.meanInterval inputs b m p mi l) (maxWait inputs))
    as (_ & _ & _ & _ & _ & H & _).
  exact H.
Qed.

Lemma PurchaseRate_output_recommendation inputs b m p mi l :
  recommendation (PurchaseRate.output inputs b m p mi l) =
  {| optimal_wait_minutes :=
       round (PurchaseRate.optimalWait inputs b m p mi l) 2;
     probability_next_winner_within_optimal_wait :=
       round (PurchaseRate.probabilityWithinOptimal inputs b m p mi l) 4 |}.
Proof.
  unfold PurchaseRate.output.
  destruct (withEconomics_preserves
              (PurchaseRate.result_ inputs b m p mi l)
              (expected_bonus_value inputs) (time_value_per_minute inputs)
              (PurchaseRate.probabilityWithinOptimal inputs b m p mi l)
              (PurchaseRate.meanInterval inputs b m p mi l) (maxWait inputs))
    as (_ & _ & _ & _ & _ & _ & H).
  exact H.
Qed.

(** ** The timeline and its intervals *)

Lemma rollover_spec (candidate current : Z) :
  exists k : nat,
    rollover candidate current = (candidate + 86400 * Z.of_nat k)%Z /\
    (current < rollover candidate current)%Z /\
    (forall j : nat, (j < k)%nat -> (candidate + 86400 * Z.of_nat j <= current)%Z).
Proof.
  funelim (rollover candidate current).
  - destruct H as (k & Hk & Hgt & Hmin).
    exists (S k). split; [lia|]. split; [lia|].
    intros j Hj. destruct j as [|j].
    + lia.
    + specialize (Hmin j ltac:(lia)). lia.
  - exists 0%nat. split; [lia|]. split; [lia|]. intros j Hj. lia.
Qed.

Lemma rollover_gt (candidate current : Z) :
  (current < rollover candidate current)%Z.
Proof. destruct (rollover_spec candidate current) as (k & _ & H & _). exact H. Qed.

Lemma absoluteSecondsFrom_sorted (rest : list Z) (current : Z) :
  Sorted Z.lt (current :: absoluteSecondsFrom current rest).
Proof.
  revert current. induction rest as [|raw rest IH]; intros current; simpl.
  - constructor; constructor.
  - constructor.
    + apply IH.
    + constructor. apply rollover_gt.
Qed.

Lemma absoluteSeconds_sorted (hmsSeconds : list Z) :
  Sorted Z.lt (absoluteSeconds hmsSeconds).
Proof.
  destruct hmsSeconds as [|first rest]; simpl.
  - constructor.
  - apply absoluteSecondsFrom_sorted.
Qed.

Lemma absoluteSecondsFrom_length rest current :
  List.length (absoluteSecondsFrom current rest) = List.length rest.
Proof.
  revert current. induction rest as [|raw rest IH]; intros current; simpl;
    [reflexivity | rewrite IH; reflexivity].
Qed.

Lemma absoluteSeconds_length hmsSeconds :
  List.length (absoluteSeconds hmsSeconds) = List.length hmsSeconds.
Proof.
  destruct hmsSeconds; simpl; [reflexivity|].
  rewrite absoluteSecondsFrom_length. reflexivity.
Qed.

Lemma strictlyIncreasing_sorted (parsed : list Z) :
  strictlyIncreasing parsed = true <-> Sorted Z.lt parsed.
Proof.
  induction parsed as [|prev rest IH].
  - split; [constructor | reflexivity].
  - destruct rest as [|next rest'].
    + split; [intros _; constructor; constructor | reflexivity].
    + change (strictlyIncreasing (prev :: next :: rest'))
        with ((prev <? next)%Z && strictlyIncreasing (next :: rest')).
      rewrite andb_true_iff, Z.ltb_lt, IH. split.
      * intros [Hlt Hs]. constructor; [exact Hs | constructor; exact Hlt].
      * intros Hs. inversion Hs as [|? ? Hs' Hhd]. subst.
        inversion Hhd. subst. auto.
Qed.

Lemma scaled_sorted (scale : R) (values : list Z) :
  0 < scale ->
  Sorted Z.lt values ->
  Sorted Rlt (map (fun value => IZR value / scale) values).
Proof.
  intros Hs Hsorted. induction Hsorted as [|a l Hl IH Hhd]; simpl.
  - constructor.
  - constructor; [exact IH|].
    destruct Hhd as [|b l' Hab]; simpl; constructor.
    apply Rmult_lt_compat_r; [apply Rinv_0_lt_compat; exact Hs|].
    apply IZR_lt. exact Hab.
Qed.

Lemma allDefined_length {A} (values : list (option A)) (vs : list A) :
  allDefined values = Some vs -> List.length vs = List.length values.
Proof.
  revert vs. induction values as [|[v|] rest IH]; intros vs; simpl.
  - intros H. inversion H. reflexivity.
  - destruct (allDefined rest) as [vs'|]; [|discriminate].
    intros H. inversion H. simpl. rewrite (IH vs' eq_refl). reflexivity.
  - discriminate.
Qed.

Lemma intervals_length (timeline : list R) :
  List.length (intervalsFromTimelineMinutes timeline) = pred (List.length timeline).
Proof.
  induction timeline as [|prev rest IH]; [reflexivity|].
  destruct rest as [|next rest']; [reflexivity|].
  change (intervalsFromTimelineMinutes (prev :: next :: rest'))
    with ((next - prev) :: intervalsFromTimelineMinutes (next :: rest')).
  simpl List.length in *. rewrite IH. reflexivity.
Qed.

Lemma intervals_positive (timeline : list R) :
  Sorted Rlt timeline ->
  Forall (fun interval => 0 < interval) (intervalsFromTimelineMinutes timeline).
Proof.
  intros Hs. induction Hs as [|prev rest Hrest IH Hhd]; [constructor|].
  destruct rest as [|next rest']; [constructor|].
  change (intervalsFromTimelineMinutes (prev :: next :: rest'))
    with ((next - prev) :: intervalsFromTimelineMinutes (next :: rest')).
  constructor; [|exact IH]. inversion Hhd. subst. lra.
Qed.

Lemma fold_sum_shift (values : list R) (acc : R) :
  fold_left (fun a v => a + v) values acc = acc + sum values.
Proof.
  unfold sum. revert acc. induction values as [|v rest IH]; intros acc; simpl.
  - lra.
  - rewrite IH. rewrite (IH (0 + v)). lra.
Qed.

Lemma sum_cons (v : R) (values : list R) : sum (v :: values) = v + sum values.
Proof. unfold sum at 1. simpl. rewrite fold_sum_shift. lra. Qed.

Lemma sum_positive (values : list R) :
  values <> [] -> Forall (fun v => 0 < v) values -> 0 < sum values.
Proof.
  intros Hne Hall. induction Hall as [|v rest Hv Hrest IH]; [contradiction|].
  rewrite sum_cons. destruct rest as [|w rest'].
  - unfold sum. simpl. lra.
  - assert (0 < sum (w :: rest')) by (apply IH; discriminate). lra.
Qed.

Lemma mean_Ok (values : list R) :
  values <> [] -> mean values = Ok (sum values / INR (List.length values)).
Proof.
  intros Hne. unfold mean. destruct values; [contradiction|]. reflexivity.
Qed.

Lemma mean_positive (values : list R) :
  values <> [] -> Forall (fun v => 0 < v) values ->
  exists m, mean values = Ok m /\ 0 < m.
Proof.
  intros Hne Hall. eexists. split; [apply mean_Ok; exact Hne|].
  apply Rdiv_lt_0_compat; [apply sum_positive; assumption|].
  apply lt_0_INR. destruct values; [contradiction | simpl; lia].
Qed.

Lemma sampleStd_Ok (values : list R) :
  values <> [] -> exists s, sampleStd values = Ok s /\ 0 <= s.
Proof.
  intros Hne. unfold sampleStd.
  destruct (Nat.ltb (List.length values) 2).
  - exists 0. split; [reflexivity | lra].
  - rewrite (mean_Ok _ Hne). simpl. eexists. split; [reflexivity | apply sqrt_pos].
Qed.

(** ** The recommendation of mode A *)

Lemma PurchaseRate_probability_formula inputs b m p mi l :
  PurchaseRate.probabilityWithinOptimal inputs b m p mi l =
  clamp (PurchaseRate.optimalWait inputs b m p mi l
         / PurchaseRate.meanInterval inputs b m p mi l) 0 1.
Proof.
  pose proof (meanInterval_pos inputs b m p mi l) as HT.
  unfold PurchaseRate.probabilityWithinOptimal, probabilityWithinUniform.
  decide_num. reflexivity.
Qed.

Lemma PurchaseRate_probability_unbound inputs b m p mi l :
  1 <= PurchaseRate.meanInterval inputs b m p mi l * probabilityTarget inputs
    <= maxWait inputs ->
  PurchaseRate.probabilityWithinOptimal inputs b m p mi l =
  probabilityTarget inputs.
Proof.
  intros Hin.
  pose proof (meanInterval_pos inputs b m p mi l) as HT.
  pose proof (probabilityTarget_bounds inputs) as Ht.
  rewrite PurchaseRate_probability_formula.
  unfold PurchaseRate.optimalWait, PurchaseRate.waitForTarget.
  rewrite (clamp_inside _ 1) by exact Hin.
  replace (PurchaseRate.meanInterval inputs b m p mi l
           * probabilityTarget inputs
           / PurchaseRate.meanInterval inputs b m p mi l)
    with (probabilityTarget inputs) by (field; lra).
  apply clamp_inside. lra.
Qed.


(** ** The validator of mode B *)

Section Timeline.

Variable Date_parse : string -> option Z.

Lemma parse_hms timestamps hmsSeconds :
  (2 <= List.length timestamps)%nat ->
  allDefined (map parseHmsToSeconds timestamps) = Some hmsSeconds ->
  parseTimestampsToMonotonicMinutes Date_parse timestamps =
  Ok (map (fun seconds => IZR seconds / 60) (absoluteSeconds hmsSeconds)).
Proof.
  intros Hlen Hall. unfold parseTimestampsToMonotonicMinutes.
  rewrite (proj2 (Nat.leb_le _ _) Hlen). simpl. rewrite Hall. reflexivity.
Qed.

Lemma parse_dates timestamps parsed :
  (2 <= List.length timestamps)%nat ->
  allDefined (map parseHmsToSeconds timestamps) = None ->
  allDefined (map Date_parse timestamps) = Some parsed ->
  Sorted Z.lt parsed ->
  parseTimestampsToMonotonicMinutes Date_parse timestamps =
  Ok (map (fun value => IZR value / 60000) parsed).
Proof.
  intros Hlen Hhms Hall Hs. unfold parseTimestampsToMonotonicMinutes.
  rewrite (proj2 (Nat.leb_le _ _) Hlen). simpl. rewrite Hhms, Hall.
  rewrite (proj2 (strictlyIncreasing_sorted parsed) Hs). reflexivity.
Qed.

Lemma parse_Ok timestamps timeline :
  parseTimestampsToMonotonicMinutes Date_parse timestamps = Ok timeline ->
  (2 <= List.length timestamps)%nat /\
  Sorted Rlt timeline /\
  List.length timeline = List.length timestamps /\
  ((exists hmsSeconds,
      allDefined (map parseHmsToSeconds timestamps) = Some hmsSeconds) \/
   (exists parsed,
      allDefined (map Date_parse timestamps) = Some parsed /\
      Sorted Z.lt parsed)).
Proof.
  unfold parseTimestampsToMonotonicMinutes.
  destruct (Nat.leb 2 (List.length timestamps)) eqn:Hlen; [|discriminate].
  apply Nat.leb_le in Hlen. simpl.
  destruct (allDefined (map parseHmsToSeconds timestamps)) as [hms|] eqn:Hhms.
  - intros H. inversion H. subst. split; [exact Hlen|]. split; [|split].
    + apply scaled_sorted; [lra | apply absoluteSeconds_sorted].
    + rewrite length_map, absoluteSeconds_length.
      rewrite (allDefined_length _ _ Hhms). apply length_map.
    + left. eexists. reflexivity.
  - destruct (allDefined (map Date_parse timestamps)) as [parsed|] eqn:Hd;
      [|discriminate].
    destruct (strictlyIncreasing parsed) eqn:Hs; [|discriminate]. simpl.
    apply strictlyIncreasing_sorted in Hs.
    intros H. inversion H. subst. split; [exact Hlen|]. split; [|split].
    + apply scaled_sorted; [lra | exact Hs].
    + rewrite length_map. rewrite (allDefined_length _ _ Hd). apply length_map.
    + right. exists parsed. auto.
Qed.

Lemma parse_valid timestamps :
  (2 <= List.length timestamps)%nat ->
  ((exists hmsSeconds,
      allDefined (map parseHmsToSeconds timestamps) = Some hmsSeconds) \/
   (exists parsed,
      allDefined (map Date_parse timestamps) = Some parsed /\
      Sorted Z.lt parsed)) ->
  exists timeline,
    parseTimestampsToMonotonicMinutes Date_parse timestamps = Ok timeline.
Proof.
  intros Hlen Hfmt.
  destruct (allDefined (map parseHmsToSeconds timestamps)) as [hms|] eqn:Hhms.
  - eexists. apply parse_hms; eassumption.
  - destruct Hfmt as [[hms H]|[parsed [Hd Hs]]]; [discriminate|].
    eexists. apply parse_dates; eassumption.
Qed.

Lemma runWinnerTimestampsMode_valid inputs timestamps :
  ValidTimestamps Date_parse inputs timestamps ->
  exists intervals intervalMean intervalStd,
    CadenceRun Date_parse inputs intervals intervalMean intervalStd.
Proof.
  intros [Hts Hlen Hfmt].
  destruct (parse_valid timestamps Hlen Hfmt) as [timeline Hparse].
  destruct (parse_Ok _ _ Hparse) as (_ & Hsorted & Hlength & _).
  set (intervals := intervalsFromTimelineMinutes timeline).
  assert (Hne : intervals <> []).
  { intros Hnil. apply (f_equal (@List.length R)) in Hnil.
    unfold intervals in Hnil. rewrite intervals_length in Hnil.
    simpl in Hnil. lia. }
  destruct (mean_positive intervals Hne (intervals_positive _ Hsorted))
    as (m & Hm & Hmpos).
  destruct (sampleStd_Ok intervals Hne) as (s & Hs & Hspos).
  exists intervals, m, s. constructor; auto.
  - exists timestamps, timeline. auto.
  - unfold runWinnerTimestampsMode. rewrite Hts.
    rewrite (proj2 (Nat.leb_le _ _) Hlen). simpl.
    rewrite Hparse. simpl. fold intervals. rewrite Hm. simpl.
    rewrite Hs. reflexivity.
Qed.

Lemma runWinnerTimestampsMode_Ok inputs o :
  runWinnerTimestampsMode Date_parse inputs = Ok o ->
  exists timestamps, ValidTimestamps Date_parse inputs timestamps.
Proof.
  unfold runWinnerTimestampsMode.
  destruct (winner_timestamps inputs) as [ts|] eqn:Hts; [|discriminate].
  destruct (Nat.leb 2 (List.length ts)) eqn:Hlen; [|discriminate].
  simpl.
  destruct (parseTimestampsToMonotonicMinutes Date_parse ts)
    as [timeline|] eqn:Hparse; [|discriminate].
  intros _. exists ts. apply parse_Ok in Hparse.
  constructor; [exact Hts | tauto | tauto].
Qed.

End Timeline.

(** ** The output of mode B *)

Lemma WinnerTimestamps_output_waits inputs intervals m s :
  wait_estimates_minutes (WinnerTimestamps.output inputs intervals m s) =
  WinnerTimestamps.waitStats inputs m s.
Proof.
  unfold WinnerTimestamps.output.
  destruct (withEconomics_preserves
              (WinnerTimestamps.result_ inputs intervals m s)
              (expected_bonus_value inputs) (time_value_per_minute inputs)
              (WinnerTimestamps.probabilityWithinOptimal inputs m s)
              m (maxWait inputs))
    as (_ & _ & _ & _ & _ & H & _).
  exact H.
Qed.

Lemma WinnerTimestamps_output_recommendation inputs intervals m s :
  recommendation (WinnerTimestamps.output inputs intervals m s) =
  {| optimal_wait_minutes := round (WinnerTimestamps.optimalWait inputs m s) 2;
     probability_next_winner_within_optimal_wait :=
       round (WinnerTimestamps.probabilityWithinOptimal inputs m s) 4 |}.
Proof.
  unfold WinnerTimestamps.output.
  destruct (withEconomics_preserves
              (WinnerTimestamps.result_ inputs intervals m s)
              (expected_bonus_value inputs) (time_value_per_minute inputs)
              (WinnerTimestamps.probabilityWithinOptimal inputs m s)
              m (maxWait inputs))
    as (_ & _ & _ & _ & _ & _ & H).
  exact H.
Qed.

Lemma WinnerTimestamps_output_cadence inputs intervals m s :
  cadence_analysis (WinnerTimestamps.output inputs intervals m s) =
  Some {| intervals_minutes := map (fun value => round value 2) intervals;
          interval_mean_minutes := round m 2;
          interval_std_minutes := round s 2;
          interval_cv := round (WinnerTimestamps.intervalCv m s) 2;
          cadence_model := WinnerTimestamps.cadenceModel m s |}.
Proof.
  unfold WinnerTimestamps.output.
  destruct (withEconomics_preserves
              (WinnerTimestamps.result_ inputs intervals m s)
              (expected_bonus_value inputs) (time_value_per_minute inputs)
              (WinnerTimestamps.probabilityWithinOptimal inputs m s)
              m (maxWait inputs))
    as (_ & _ & _ & _ & H & _).
  exact H.
Qed.

Lemma cadenceModel_regular m s :
  WinnerTimestamps.intervalCv m s < 0.4 ->
  WinnerTimestamps.cadenceModel m s = regular.
Proof. intros H. unfold WinnerTimestamps.cadenceModel. decide_num. reflexivity. Qed.

Lemma cadenceModel_mixed m s :
  0.4 <= WinnerTimestamps.intervalCv m s <= 0.7 ->
  WinnerTimestamps.cadenceModel m s = mixed.
Proof. intros H. unfold WinnerTimestamps.cadenceModel. decide_num. reflexivity. Qed.

Lemma cadenceModel_random m s :
  0.7 < WinnerTimestamps.intervalCv m s ->
  WinnerTimestamps.cadenceModel m s = random.
Proof. intros H. unfold WinnerTimestamps.cadenceModel. decide_num. reflexivity. Qed.

Lemma regularProbability_unclamped inputs m s :
  WinnerTimestamps.cadenceModel m s = regular ->
  WinnerTimestamps.regularRemaining inputs m <= maxWait inputs ->
  WinnerTimestamps.probabilityWithinOptimal inputs m s = 1.
Proof.
  intros Hc Hle. unfold WinnerTimestamps.probabilityWithinOptimal.
  rewrite Hc. unfold WinnerTimestamps.regularProbability.
  destruct (Num.leb (WinnerTimestamps.regularRemaining inputs m) EPSILON) eqn:E;
    [reflexivity|].
  apply NumFacts.leb_false in E. pose proof EPSILON_pos as He.
  unfold WinnerTimestamps.optimalWait. rewrite Hc.
  rewrite (clamp_inside (WinnerTimestamps.regularRemaining inputs m)) by lra.
  rewrite Rmax_left by lra.
  replace (WinnerTimestamps.regularRemaining inputs m
           / WinnerTimestamps.regularRemaining inputs m) with 1 by (field; lra).
  apply clamp_inside. lra.
Qed.

(** ** Wait estimates are non-negative *)

Lemma ln_negative (x : R) : 0 < x < 1 -> ln x < 0.
Proof. intros [H0 H1]. rewrite <- ln_1. apply ln_increasing; assumption. Qed.

Lemma exp_quantile_nonneg (m q : R) : 0 < m -> 0 < q < 1 -> 0 <= - m * ln (1 - q).
Proof.
  intros Hm Hq. assert (ln (1 - q) < 0) by (apply ln_negative; lra).
  replace (- m * ln (1 - q)) with (m * - ln (1 - q)) by lra.
  apply Rmult_le_pos; lra.
Qed.

Lemma uniformWaitStats_nonneg (interval : R) :
  nonnegativeWaits (uniformWaitStats interval).
Proof.
  unfold nonnegativeWaits, uniformWaitStats. simpl.
  pose proof (Rmax_r interval 0) as H.
  repeat split; apply round_nonneg; lra.
Qed.

Lemma expWaitStats_nonneg (m : R) : nonnegativeWaits (expWaitStats m).
Proof.
  unfold nonnegativeWaits, expWaitStats. simpl.
  assert (Hm : 0 < Rmax m EPSILON).
  { apply Rlt_le_trans with EPSILON; [apply EPSILON_pos | apply Rmax_r]. }
  repeat split; apply round_nonneg; try lra; apply exp_quantile_nonneg; lra.
Qed.

Lemma regularRemaining_nonneg inputs m :
  0 <= WinnerTimestamps.regularRemaining inputs m.
Proof. unfold WinnerTimestamps.regularRemaining. apply Rmax_r. Qed.

Lemma waitStatsRegular_nonneg inputs m :
  0 <= m -> nonnegativeWaits (WinnerTimestamps.waitStatsRegular inputs m).
Proof.
  intros Hm. unfold nonnegativeWaits, WinnerTimestamps.waitStatsRegular. simpl.
  pose proof (regularRemaining_nonneg inputs m).
  repeat split; apply round_nonneg; lra.
Qed.

Lemma waitStats_nonneg inputs m s :
  0 <= m -> nonnegativeWaits (WinnerTimestamps.waitStats inputs m s).
Proof.
  intros Hm. unfold WinnerTimestamps.waitStats.
  destruct (waitStatsRegular_nonneg inputs m Hm) as (R1 & R2 & R3 & R4 & R5).
  destruct (expWaitStats_nonneg m) as (E1 & E2 & E3 & E4 & E5).
  destruct (WinnerTimestamps.cadenceModel m s).
  - apply waitStatsRegular_nonneg. exact Hm.
  - unfold nonnegativeWaits, WinnerTimestamps.waitStatsRandom,
      WinnerTimestamps.randomExpectedRemaining. simpl in *.
    repeat split; apply round_nonneg; lra.
  - apply expWaitStats_nonneg.
Qed.

(** ** Valid inputs of the engine *)

Lemma weekdaySingleLane_valid mw t bonus tv :
  ValidPurchaseRate (weekdaySingleLane mw t bonus tv) false global 1 1 1.
Proof. constructor; simpl; try reflexivity; lra. Qed.

Lemma weekdaySingleLane_meanInterval mw t bonus tv :
  PurchaseRate.meanInterval (weekdaySingleLane mw t bonus tv) false global 1 1 1
  = 31.25.
Proof.
  unfold PurchaseRate.meanInterval, PurchaseRate.lambdaConservative,
    PurchaseRate.lambdaEstimated, PurchaseRate.lambdaObserved,
    PurchaseRate.confidenceBuffer, PurchaseRate.laneScale,
    PurchaseRate.kThreshold, EPSILON.
  simpl. rewrite clamp_inside by lra. rewrite Rmax_left by lra. lra.
Qed.

Lemma round_upper (x : R) : round x 2 <= x + 1 / 200.
Proof.
  unfold round. cbv zeta. destruct (Math_round_bounds (x * 10 ^ 2)) as [_ H].
  simpl in *. lra.
Qed.

Lemma round_two_decimals (n : Z) : round (IZR n / 100) 2 = IZR n / 100.
Proof.
  pose proof (round_exact n 2) as H.
  replace (10 ^ 2) with 100 in H by (simpl; lra). exact H.
Qed.

Lemma PurchaseRate_optimalWait_bounds inputs b m p mi l :
  1 <= PurchaseRate.optimalWait inputs b m p mi l <= maxWait inputs.
Proof. unfold PurchaseRate.optimalWait. apply clamp_bounds. apply maxWait_ge_1. Qed.

Lemma WinnerTimestamps_optimalWait_bounds inputs m s :
  0 <= WinnerTimestamps.optimalWait inputs m s <= maxWait inputs.
Proof.
  unfold WinnerTimestamps.optimalWait. apply clamp_bounds.
  pose proof (maxWait_ge_1 inputs). lra.
Qed.

Section Run.

Variable Date_parse : string -> option Z.

(** A valid input is accepted, and the output is built by one of the two
    modes and then passed to [withEconomics]. *)
Lemma run_valid inputs :
  ValidInput Date_parse inputs ->
  (exists b m p mi l,
      mode inputs = mode_purchase_rate /\
      ValidPurchaseRate inputs b m p mi l /\
      run Date_parse inputs = Ok (PurchaseRate.output inputs b m p mi l)) \/
  (exists intervals intervalMean intervalStd,
      mode inputs = mode_winner_timestamps /\
      CadenceRun Date_parse inputs intervals intervalMean intervalStd /\
      run Date_parse inputs =
      Ok (WinnerTimestamps.output inputs intervals intervalMean intervalStd)).
Proof.
  unfold ValidInput, run. destruct (mode inputs).
  - intros (b & m & p & mi & l & Hv). left. exists b, m, p, mi, l.
    split; [reflexivity|]. split; [exact Hv|].
    apply runPurchaseRateMode_valid. exact Hv.
  - intros (ts & Hv). right.
    destruct (runWinnerTimestampsMode_valid _ _ _ Hv)
      as (intervals & m & s & Hrun).
    exists intervals, m, s. split; [reflexivity|]. split; [exact Hrun|].
    apply (run_output _ _ _ _ _ Hrun).
Qed.

Lemma run_Ok_valid inputs o :
  run Date_parse inputs = Ok o -> ValidInput Date_parse inputs.
Proof.
  unfold ValidInput, run. destruct (mode inputs).
  - intros H. apply runPurchaseRateMode_Ok in H.
    destruct H as (b & m & p & mi & l & Hv & _). exists b, m, p, mi, l. exact Hv.
  - apply runWinnerTimestampsMode_Ok.
Qed.

End Run.

(** ** The economics overlay *)

Lemma withEconomics_present output bonus timeValue probability interval maxW :
  0 <= bonus -> 0 <= timeValue ->
  exists e,
    economics (withEconomics output (Some bonus) (Some timeValue)
                 probability interval maxW) = Some e /\
    break_even_wait_minutes e =
      round (if Num.eqb timeValue 0 then maxW
             else clamp (bonus / timeValue) 0 maxW) 2.
Proof.
  intros Hb Ht. unfold withEconomics. decide_num. simpl.
  eexists. split; reflexivity.
Qed.

Lemma withEconomics_absent output bonus timeValue probability interval maxW :
  economics output = None ->
  ~ (exists b t, bonus = Some b /\ timeValue = Some t /\ 0 <= b /\ 0 <= t) ->
  economics (withEconomics output bonus timeValue probability interval maxW)
  = None.
Proof.
  intros Hnone Hnot. unfold withEconomics.
  destruct bonus as [b|]; [|exact Hnone].
  destruct timeValue as [t|]; [|exact Hnone].
  destruct (Num.ltb b 0) eqn:Eb; [exact Hnone|].
  destruct (Num.ltb t 0) eqn:Et; [exact Hnone|].
  apply NumFacts.ltb_false in Eb, Et. exfalso. apply Hnot. exists b, t. auto.
Qed.

Lemma withEconomics_block inputs base probability interval :
  economics base = None ->
  let o := withEconomics base (expected_bonus_value inputs)
             (time_value_per_minute inputs) probability interval
             (maxWait inputs) in
  (economics o <> None <->
   exists bonus timeValue, economicsSupplied inputs bonus timeValue) /\
  (forall e bonus timeValue,
      economics o = Some e ->
      economicsSupplied inputs bonus timeValue ->
      (timeValue = 0 ->
       break_even_wait_minutes e = round (maxWait inputs) 2) /\
      (timeValue <> 0 ->
       break_even_wait_minutes e =
         round (clamp (bonus / timeValue) 0 (maxWait inputs)) 2)).
Proof.
  intros Hbase. cbv zeta. unfold economicsSupplied.
  destruct (expected_bonus_value inputs) as [b|];
    destruct (time_value_per_minute inputs) as [t|].
  - destruct (Rle_lt_dec 0 b) as [Hb|Hb]; [destruct (Rle_lt_dec 0 t) as [Ht|Ht]|].
    + destruct (withEconomics_present base b t probability interval
                  (maxWait inputs) Hb Ht) as (e & He & Hbreak).
      rewrite He. split.
      * split; [intros _; exists b, t; auto | discriminate].
      * intros e' bonus timeValue He' (Hbonus & Htime & _ & _).
        inversion He'. inversion Hbonus. inversion Htime. subst.
        rewrite Hbreak. split; intros Hz; decide_num; reflexivity.
    + rewrite withEconomics_absent.
      * split; [split; [congruence|] | discriminate].
        intros (bonus & timeValue & _ & Htime & _ & Hpos).
        inversion Htime. subst. lra.
      * exact Hbase.
      * intros (b' & t' & _ & Htime & _ & Hpos). inversion Htime. subst. lra.
    + rewrite withEconomics_absent.
      * split; [split; [congruence|] | discriminate].
        intros (bonus & timeValue & Hbonus & _ & Hpos & _).
        inversion Hbonus. subst. lra.
      * exact Hbase.
      * intros (b' & t' & Hbonus & _ & Hpos & _). inversion Hbonus. subst. lra.
  - simpl. rewrite Hbase. split; [split; [congruence|] | discriminate].
    intros (bonus & timeValue & _ & Htime & _). discriminate.
  - simpl. rewrite Hbase. split; [split; [congruence|] | discriminate].
    intros (bonus & timeValue & Hbonus & _). discriminate.
  - simpl. rewrite Hbase. split; [split; [congruence|] | discriminate].
    intros (bonus & timeValue & Hbonus & _). discriminate.
Qed.

(** ** Bare times of day *)

Lemma absoluteSecondsFrom_step (rest : list Z) (current first : Z) (i : nat) :
  (i < List.length rest)%nat ->
  nth (S i) (current :: absoluteSecondsFrom current rest) 0%Z =
  rollover (nth (S i) (first :: rest) 0%Z)
           (nth i (current :: absoluteSecondsFrom current rest) 0%Z).
Proof.
  revert current first i. induction rest as [|raw rest IH]; intros current first i Hi.
  - simpl in Hi. lia.
  - destruct i as [|i].
    + reflexivity.
    + simpl in Hi.
      change (nth (S (S i)) (current :: absoluteSecondsFrom current (raw :: rest)) 0%Z)
        with (nth (S i) (rollover raw current
                         :: absoluteSecondsFrom (rollover raw current) rest) 0%Z).
      change (nth (S i) (current :: absoluteSecondsFrom current (raw :: rest)) 0%Z)
        with (nth i (rollover raw current
                     :: absoluteSecondsFrom (rollover raw current) rest) 0%Z).
      change (nth (S (S i)) (first :: raw :: rest) 0%Z)
        with (nth (S i) (raw :: rest) 0%Z).
      apply IH. lia.
Qed.

Lemma absoluteSeconds_step (hmsSeconds : list Z) (i : nat) :
  (S i < List.length hmsSeconds)%nat ->
  nth (S i) (absoluteSeconds hmsSeconds) 0%Z =
  rollover (nth (S i) hmsSeconds 0%Z) (nth i (absoluteSeconds hmsSeconds) 0%Z).
Proof.
  destruct hmsSeconds as [|first rest]; simpl List.length; [lia|].
  intros Hi. unfold absoluteSeconds. apply absoluteSecondsFrom_step. lia.
Qed.

Lemma absoluteSeconds_first (hmsSeconds : list Z) :
  nth 0 (absoluteSeconds hmsSeconds) 0%Z = nth 0 hmsSeconds 0%Z.
Proof. destruct hmsSeconds; reflexivity. Qed.

Lemma Rlt_sorted_strongly (timeline : list R) :
  Sorted Rlt timeline -> StronglySorted Rlt timeline.
Proof.
  apply Sorted_StronglySorted. intros x y z. apply Rlt_trans.
Qed.

(** ** Date-times *)

Lemma allDefined_None {A B} (f : A -> option B) (values : list A) (v : A) :
  In v values -> f v = None -> allDefined (map f values) = None.
Proof.
  induction values as [|w rest IH]; intros Hin Hv; [contradiction|].
  simpl. destruct Hin as [->|Hin].
  - rewrite Hv. reflexivity.
  - destruct (f w); [|reflexivity]. rewrite (IH Hin Hv). reflexivity.
Qed.

Section DateTimes.

Variable Date_parse : string -> option Z.

Lemma parse_invalid_format timestamps :
  (2 <= List.length timestamps)%nat ->
  allDefined (map parseHmsToSeconds timestamps) = None ->
  allDefined (map Date_parse timestamps) = None ->
  parseTimestampsToMonotonicMinutes Date_parse timestamps = Err invalidFormat.
Proof.
  intros Hlen Hhms Hd. unfold parseTimestampsToMonotonicMinutes.
  rewrite (proj2 (Nat.leb_le _ _) Hlen). simpl. rewrite Hhms, Hd. reflexivity.
Qed.

Lemma parse_unordered timestamps parsed :
  (2 <= List.length timestamps)%nat ->
  allDefined (map parseHmsToSeconds timestamps) = None ->
  allDefined (map Date_parse timestamps) = Some parsed ->
  ~ Sorted Z.lt parsed ->
  parseTimestampsToMonotonicMinutes Date_parse timestamps = Err unorderedDates.
Proof.
  intros Hlen Hhms Hd Hs. unfold parseTimestampsToMonotonicMinutes.
  rewrite (proj2 (Nat.leb_le _ _) Hlen). simpl. rewrite Hhms, Hd.
  destruct (strictlyIncreasing parsed) eqn:E; [|reflexivity].
  apply strictlyIncreasing_sorted in E. contradiction.
Qed.

Lemma run_parse_error inputs timestamps message :
  winner_timestamps inputs = Some timestamps ->
  (2 <= List.length timestamps)%nat ->
  parseTimestampsToMonotonicMinutes Date_parse timestamps = Err message ->
  runWinnerTimestampsMode Date_parse inputs = Err message.
Proof.
  intros Hts Hlen Hparse. unfold runWinnerTimestampsMode.
  rewrite Hts. rewrite (proj2 (Nat.leb_le _ _) Hlen). simpl.
  rewrite Hparse. reflexivity.
Qed.

End DateTimes.

(** ** Runs of mode B on a known timeline *)

Lemma CadenceRun_of_timeline Date_parse inputs timestamps timeline m s :
  winner_timestamps inputs = Some timestamps ->
  parseTimestampsToMonotonicMinutes Date_parse timestamps = Ok timeline ->
  mean (intervalsFromTimelineMinutes timeline) = Ok m ->
  sampleStd (intervalsFromTimelineMinutes timeline) = Ok s ->
  CadenceRun Date_parse inputs (intervalsFromTimelineMinutes timeline) m s.
Proof.
  intros Hts Hparse Hm Hs.
  destruct (parse_Ok _ _ _ Hparse) as (Hlen & Hsorted & Hlength & _).
  assert (Hne : intervalsFromTimelineMinutes timeline <> []).
  { intros Hnil. apply (f_equal (@List.length R)) in Hnil.
    rewrite intervals_length in Hnil. simpl in Hnil. lia. }
  destruct (mean_positive _ Hne (intervals_positive _ Hsorted))
    as (m' & Hm' & Hpos).
  destruct (sampleStd_Ok _ Hne) as (s' & Hs' & Hnonneg).
  rewrite Hm in Hm'. inversion Hm'. subst m'.
  rewrite Hs in Hs'. inversion Hs'. subst s'.
  constructor; auto.
  - exists timestamps, timeline. auto.
  - unfold runWinnerTimestampsMode. rewrite Hts.
    rewrite (proj2 (Nat.leb_le _ _) Hlen). simpl.
    rewrite Hparse. simpl. rewrite Hm. simpl. rewrite Hs. reflexivity.
Qed.

Lemma CadenceRun_unique Date_parse inputs intervals m s intervals' m' s' :
  CadenceRun Date_parse inputs intervals m s ->
  CadenceRun Date_parse inputs intervals' m' s' ->
  intervals = intervals' /\ m = m' /\ s = s'.
Proof.
  intros [(ts & tl & Hts & Hparse & Hi) Hm Hs _ _ _]
         [(ts' & tl' & Hts' & Hparse' & Hi') Hm' Hs' _ _ _].
  rewrite Hts in Hts'. inversion Hts'. subst ts'.
  rewrite Hparse in Hparse'. inversion Hparse'. subst tl'.
  subst intervals intervals'.
  rewrite Hm in Hm'. inversion Hm'.
  rewrite Hs in Hs'. inversion Hs'. auto.
Qed.

(** ** The sample inputs *)

Lemma scenario1_valid : ValidPurchaseRate scenario1 true global 5 2 5.
Proof. constructor; simpl; try reflexivity; lra. Qed.

Lemma scenario1_lambdaConservative :
  PurchaseRate.lambdaConservative scenario1 global 5 2 5 = 6.
Proof.
  unfold PurchaseRate.lambdaConservative, PurchaseRate.lambdaEstimated,
    PurchaseRate.lambdaObserved, PurchaseRate.confidenceBuffer,
    PurchaseRate.laneScale.
  simpl. decide_num. rewrite clamp_inside by lra. lra.
Qed.

Lemma scenario1_meanInterval :
  PurchaseRate.meanInterval scenario1 true global 5 2 5 = 25 / 3.
Proof.
  unfold PurchaseRate.meanInterval. rewrite scenario1_lambdaConservative.
  unfold PurchaseRate.kThreshold, EPSILON. simpl.
  rewrite Rmax_left by lra. lra.
Qed.

Lemma scenario1_maxWait : maxWait scenario1 = 30.
Proof. unfold maxWait. simpl. apply Rmax_left. lra. Qed.

Lemma scenario1_probabilityTarget : probabilityTarget scenario1 = 0.75.
Proof. unfold probabilityTarget. simpl. apply clamp_inside. lra. Qed.

Lemma scenario1_optimalWait :
  PurchaseRate.optimalWait scenario1 true global 5 2 5 = 6.25.
Proof.
  unfold PurchaseRate.optimalWait, PurchaseRate.waitForTarget.
  rewrite scenario1_meanInterval, scenario1_probabilityTarget, scenario1_maxWait.
  rewrite clamp_inside by lra. lra.
Qed.

Lemma scenario1_probability :
  PurchaseRate.probabilityWithinOptimal scenario1 true global 5 2 5 = 0.75.
Proof.
  unfold PurchaseRate.probabilityWithinOptimal.
  rewrite scenario1_optimalWait, scenario1_meanInterval.
  unfold probabilityWithinUniform. decide_num.
  rewrite clamp_inside by lra. lra.
Qed.

Lemma threeAnnouncements_parse Date_parse :
  parseTimestampsToMonotonicMinutes Date_parse ["10:00"; "10:10"; "10:30"]%string
  = Ok threeAnnouncements_timeline.
Proof.
  rewrite (parse_hms Date_parse _ [36000; 36600; 37800]%Z);
    [reflexivity | simpl; lia | reflexivity].
Qed.

Lemma threeAnnouncements_mean :
  mean (intervalsFromTimelineMinutes threeAnnouncements_timeline) = Ok 15.
Proof. unfold mean, sum. simpl. f_equal. lra. Qed.

Lemma threeAnnouncements_std :
  sampleStd (intervalsFromTimelineMinutes threeAnnouncements_timeline)
  = Ok (sqrt 50).
Proof.
  unfold sampleStd. simpl Nat.ltb. cbv iota.
  rewrite threeAnnouncements_mean. simpl. f_equal. f_equal. lra.
Qed.

Lemma sqrt_50_bounds : 6 <= sqrt 50 <= 10.
Proof.
  split.
  - apply Rle_trans with (sqrt (6 * 6)).
    + rewrite sqrt_square by lra. lra.
    + apply sqrt_le_1_alt. lra.
  - apply Rle_trans with (sqrt (10 * 10)).
    + apply sqrt_le_1_alt. lra.
    + rewrite sqrt_square by lra. lra.
Qed.

Lemma threeAnnouncements_cv :
  0.4 <= sqrt 50 / Rmax 15 EPSILON <= 0.7.
Proof.
  unfold EPSILON. rewrite Rmax_left by lra. pose proof sqrt_50_bounds. lra.
Qed.

Lemma threeAnnouncements_run Date_parse mw :
  CadenceRun Date_parse (threeAnnouncements mw)
    (intervalsFromTimelineMinutes threeAnnouncements_timeline) 15 (sqrt 50).
Proof.
  apply CadenceRun_of_timeline with (timestamps := ["10:00"; "10:10"; "10:30"]%string).
  - reflexivity.
  - apply threeAnnouncements_parse.
  - apply threeAnnouncements_mean.
  - apply threeAnnouncements_std.
Qed.

Lemma threeAnnouncements_valid Date_parse mw :
  ValidTimestamps Date_parse (threeAnnouncements mw)
    ["10:00"; "10:10"; "10:30"]%string.
Proof.
  constructor; [reflexivity | simpl; lia |].
  left. exists [36000; 36600; 37800]%Z. reflexivity.
Qed.

Lemma waitStats_mixed inputs m s :
  WinnerTimestamps.cadenceModel m s = mixed ->
  let remaining := WinnerTimestamps.regularRemaining inputs m in
  let exponential := expWaitStats m in
  WinnerTimestamps.waitStats inputs m s =
  {| mean_interval_between_winners := round m 2;
     expected_wait_to_next_winner := round ((round remaining 2 + m) / 2) 2;
     p50_wait_to_next_winner :=
       round ((round remaining 2 + p50_wait_to_next_winner exponential) / 2) 2;
     p75_wait_to_next_winner :=
       round ((round remaining 2 + p75_wait_to_next_winner exponential) / 2) 2;
     p90_wait_to_next_winner :=
       round ((round remaining 2 + p90_wait_to_next_winner exponential) / 2) 2 |}.
Proof. intros Hc. unfold WinnerTimestamps.waitStats. rewrite Hc. reflexivity. Qed.

Lemma optimalWait_mixed inputs m s :
  WinnerTimestamps.cadenceModel m s = mixed ->
  WinnerTimestamps.optimalWait inputs m s =
  clamp ((WinnerTimestamps.regularRemaining inputs m
          + - m * ln (1 - probabilityTarget inputs)) / 2) 0 (maxWait inputs).
Proof. intros Hc. unfold WinnerTimestamps.optimalWait. rewrite Hc. reflexivity. Qed.

Lemma scenario2_std_bounds : 1 <= sqrt (127 / 108) <= 1.1.
Proof.
  split.
  - apply Rle_trans with (sqrt (1 * 1)).
    + rewrite sqrt_square by lra. lra.
    + apply sqrt_le_1_alt. lra.
  - apply Rle_trans with (sqrt (1.1 * 1.1)).
    + apply sqrt_le_1_alt. lra.
    + rewrite sqrt_square by lra. lra.
Qed.

Lemma scenario2_run Date_parse :
  CadenceRun Date_parse scenario2
    (intervalsFromTimelineMinutes scenario2_timeline)
    (625 / 36) (sqrt (127 / 108)).
Proof.
  apply CadenceRun_of_timeline
    with (timestamps := ["12:10:15"; "12:27:40"; "12:46:05"; "13:02:20"]%string).
  - reflexivity.
  - rewrite (parse_hms Date_parse _ [43815; 44860; 45965; 46940]%Z);
      [reflexivity | simpl; lia | reflexivity].
  - unfold mean, sum. simpl. f_equal. lra.
  - unfold sampleStd, mean, sum. simpl. f_equal. f_equal. lra.
Qed.

Lemma scenario2_regular :
  WinnerTimestamps.cadenceModel (625 / 36) (sqrt (127 / 108)) = regular.
Proof.
  apply cadenceModel_regular. unfold WinnerTimestamps.intervalCv, EPSILON.
  rewrite Rmax_left by lra. pose proof scenario2_std_bounds. lra.
Qed.

Lemma scenario2_valid Date_parse :
  ValidTimestamps Date_parse scenario2
    ["12:10:15"; "12:27:40"; "12:46:05"; "13:02:20"]%string.
Proof.
  constructor; [reflexivity | simpl; lia |].
  left. exists [43815; 44860; 45965; 46940]%Z. reflexivity.
Qed.

(** Scenario 2 of the specification: intervals of 17.42, 18.42 and 16.25
    minutes, a mean of 17.36, a coefficient of variation of 0.06, hence a
    [regular] cadence, an optimal wait of 11.36 and a probability of 1. *)
Example scenario2_winner_timestamps (Date_parse : string -> option Z) :
  exists o analysis,
    run Date_parse scenario2 = Ok o /\
    cadence_analysis o = Some analysis /\
    intervals_minutes analysis = [17.42; 18.42; 16.25] /\
    interval_mean_minutes analysis = 17.36 /\
    interval_cv analysis = 0.06 /\
    cadence_model analysis = regular /\
    optimal_wait_minutes (recommendation o) = 11.36 /\
    probability_next_winner_within_optimal_wait (recommendation o) = 1.
Proof.
  pose proof scenario2_std_bounds as Hstd.
  eexists. eexists.
  split; [apply (run_output _ _ _ _ _ (scenario2_run Date_parse))|].
  split; [apply WinnerTimestamps_output_cadence|].
  rewrite WinnerTimestamps_output_recommendation. simpl.
  split.
  { repeat f_equal.
    - rewrite (round_eq _ _ 1742%Z) by (simpl; lra). simpl. lra.
    - rewrite (round_eq _ _ 1842%Z) by (simpl; lra). simpl. lra.
    - rewrite (round_eq _ _ 1625%Z) by (simpl; lra). simpl. lra. }
  split. { rewrite (round_eq _ _ 1736%Z) by (simpl; lra). simpl. lra. }
  split.
  { unfold WinnerTimestamps.intervalCv, EPSILON. rewrite Rmax_left by lra.
    rewrite (round_eq _ _ 6%Z) by (simpl; lra). simpl. lra. }
  split; [apply scenario2_regular|].
  assert (Hr : WinnerTimestamps.regularRemaining scenario2 (625 / 36) = 409 / 36).
  { unfold WinnerTimestamps.regularRemaining, WinnerTimestamps.elapsed. simpl.
    rewrite (Rmax_left 6 0) by lra. rewrite Rmax_left by lra. lra. }
  assert (Hm : maxWait scenario2 = 30).
  { unfold maxWait. simpl. apply Rmax_left. lra. }
  split.
  - unfold WinnerTimestamps.optimalWait. rewrite scenario2_regular, Hr, Hm.
    rewrite clamp_inside by lra.
    rewrite (round_eq _ _ 1136%Z) by (simpl; lra). simpl. lra.
  - rewrite regularProbability_unclamped.
    + apply round_1.
    + apply scenario2_regular.
    + rewrite Hr, Hm. lra.
Qed.

(** * Part III: the claims of the specification *)

(** ** Mode A *)

(** C1. On Scenario 1 of the specification (weekend, [global] model, 5
    purchases in 2 minutes on 5 of 15 lanes, buffer 0.2, target 0.75, at
    most 30 minutes) the engine returns K = 50, a win probability per
    attempt of 0.02, a conservative rate of 6, a mean interval of 8.33, an
    optimal wait of 6.25 and a probability of 0.75 within that wait. *)
Theorem scenario1_purchase_rate (Date_parse : string -> option Z) :
  exists o r,
    run Date_parse scenario1 = Ok o /\
    k_threshold_clients o = Some 50 /\
    probability_win_per_attempt o = Some 0.02 /\
    rates o = Some r /\
    purchases_per_minute_conservative r = 6 /\
    mean_interval_between_winners (wait_estimates_minutes o) = 8.33 /\
    optimal_wait_minutes (recommendation o) = 6.25 /\
    probability_next_winner_within_optimal_wait (recommendation o) = 0.75.
Proof.
  eexists. eexists. split.
  { unfold run. simpl mode. cbv iota.
    apply runPurchaseRateMode_valid. exact scenario1_valid. }
  unfold PurchaseRate.output, withEconomics. simpl.
  split; [reflexivity|]. split.
  { f_equal. unfold PurchaseRate.kThreshold. simpl.
    rewrite (round_eq _ _ 200%Z) by (simpl; lra). simpl. lra. }
  split; [reflexivity|]. simpl.
  rewrite scenario1_lambdaConservative, scenario1_optimalWait,
    scenario1_probability.
  unfold PurchaseRate.waitStats, uniformWaitStats. simpl.
  rewrite scenario1_meanInterval. rewrite Rmax_left by lra.
  split. { rewrite (round_eq _ _ 600%Z) by (simpl; lra). simpl. lra. }
  split. { rewrite (round_eq _ _ 833%Z) by (simpl; lra). simpl. lra. }
  split. { rewrite (round_eq _ _ 625%Z) by (simpl; lra). simpl. lra. }
  rewrite (round_eq _ _ 7500%Z) by (simpl; lra). simpl. lra.
Qed.






(** ** Mode B *)








(** ** Timestamps *)

(** C6. When every timestamp is a bare time of day the parser returns a
    timeline of the same length that increases strictly, so every interval
    is positive: the first sample is kept, and each later sample is its
    time of day plus the least number of whole days that brings it past the
    sample before it.  In particular 23:58 followed by 00:05 gives one
    interval of 7 minutes. *)
Theorem bare_time_timeline_strictly_increasing Date_parse timestamps hmsSeconds :
  (2 <= List.length timestamps)%nat ->
  allDefined (map parseHmsToSeconds timestamps) = Some hmsSeconds ->
  exists timeline,
    parseTimestampsToMonotonicMinutes Date_parse timestamps = Ok timeline /\
    timeline = map (fun seconds => IZR seconds / 60) (absoluteSeconds hmsSeconds) /\
    List.length timeline = List.length timestamps /\
    StronglySorted Rlt timeline /\
    Forall (fun interval => 0 < interval) (intervalsFromTimelineMinutes timeline) /\
    nth 0 (absoluteSeconds hmsSeconds) 0%Z = nth 0 hmsSeconds 0%Z /\
    (forall i, (S i < List.length hmsSeconds)%nat ->
       let cursor := nth i (absoluteSeconds hmsSeconds) 0%Z in
       let sample := nth (S i) hmsSeconds 0%Z in
       let advanced := nth (S i) (absoluteSeconds hmsSeconds) 0%Z in
       exists days : nat,
         advanced = (sample + 24 * 3600 * Z.of_nat days)%Z /\
         (cursor < advanced)%Z /\
         (forall earlier : nat, (earlier < days)%nat ->
            (sample + 24 * 3600 * Z.of_nat earlier <= cursor)%Z)) /\
    (exists rollover_timeline,
       parseTimestampsToMonotonicMinutes Date_parse ["23:58"; "00:05"]%string
         = Ok rollover_timeline /\
       intervalsFromTimelineMinutes rollover_timeline = [7]).
Proof.
  intros Hlen Hall.
  pose proof (parse_hms Date_parse timestamps hmsSeconds Hlen Hall) as Hparse.
  destruct (parse_Ok _ _ _ Hparse) as (_ & Hsorted & Hlength & _).
  eexists. split; [exact Hparse|]. split; [reflexivity|].
  split; [exact Hlength|].
  split; [apply Rlt_sorted_strongly; exact Hsorted|].
  split; [apply intervals_positive; exact Hsorted|].
  split; [apply absoluteSeconds_first|]. split.
  - intros i Hi. cbv zeta. rewrite (absoluteSeconds_step _ _ Hi).
    destruct (rollover_spec (nth (S i) hmsSeconds 0%Z)
                (nth i (absoluteSeconds hmsSeconds) 0%Z))
      as (k & Hk & Hgt & Hmin).
    exists k. split; [rewrite Hk; lia|]. split; [exact Hgt|].
    intros j Hj. specialize (Hmin j Hj). lia.
  - exists (map (fun seconds => IZR seconds / 60) [86280; 86700]%Z). split.
    + rewrite (parse_hms Date_parse _ [86280; 300]%Z);
        [reflexivity | simpl; lia | reflexivity].
    + simpl. f_equal. lra.
Qed.

(** The samples 23:58 and 00:05 are bare times of day and their timeline
    increases. *)
Lemma bare_time_timeline_strictly_increasing_witness :
  exists timeline,
    parseTimestampsToMonotonicMinutes sampleHost ["23:58"; "00:05"]%string
      = Ok timeline /\
    StronglySorted Rlt timeline.
Proof.
  assert (Hlen : (2 <= List.length ["23:58"; "00:05"]%string)%nat)
    by (simpl; lia).
  destruct (bare_time_timeline_strictly_increasing sampleHost
              ["23:58"; "00:05"]%string [86280; 300]%Z Hlen eq_refl)
    as (timeline & Hparse & _ & _ & Hsorted & _).
  exists timeline. split; [exact Hparse | exact Hsorted].
Defined.

(** C7. When some timestamp is not a bare time of day, mode B returns a
    result exactly when there are at least two timestamps, the host parses
    every one as a date-time and the date-times increase strictly;
    otherwise it raises an error and returns nothing.  In particular a bare
    time of day, which the host does not parse as a date-time, mixed with
    date-times raises the format error, and date-times out of order raise
    the ordering error. *)
Theorem date_times_must_all_parse_and_increase Date_parse inputs timestamps :
  winner_timestamps inputs = Some timestamps ->
  (exists entry, In entry timestamps /\ parseHmsToSeconds entry = None) ->
  let accepted :=
    (2 <= List.length timestamps)%nat /\
    exists parsed,
      allDefined (map Date_parse timestamps) = Some parsed /\
      Sorted Z.lt parsed in
  let outcome := runWinnerTimestampsMode Date_parse inputs in
  (isOk outcome <-> accepted) /\
  (isErr outcome <-> ~ accepted) /\
  ((2 <= List.length timestamps)%nat ->
   (forall bare,
       In bare timestamps -> parseHmsToSeconds bare <> None ->
       Date_parse bare = None ->
       outcome = Err invalidFormat) /\
   (forall parsed,
       allDefined (map Date_parse timestamps) = Some parsed ->
       ~ Sorted Z.lt parsed ->
       outcome = Err unorderedDates)).
Proof.
  intros Hts (entry & Hin & Hentry). cbv zeta.
  pose proof (allDefined_None parseHmsToSeconds timestamps entry Hin Hentry)
    as Hhms.
  assert (Hok : isOk (runWinnerTimestampsMode Date_parse inputs) <->
                (2 <= List.length timestamps)%nat /\
                exists parsed,
                  allDefined (map Date_parse timestamps) = Some parsed /\
                  Sorted Z.lt parsed).
  { split.
    - intros H.
      destruct (runWinnerTimestampsMode Date_parse inputs) as [o|] eqn:Hrun;
        [|contradiction].
      destruct (runWinnerTimestampsMode_Ok _ _ _ Hrun) as (ts & [Hts' Hlen Hfmt]).
      rewrite Hts in Hts'. inversion Hts'. subst ts.
      split; [exact Hlen|].
      destruct Hfmt as [[hms Hsome]|Hd]; [congruence | exact Hd].
    - intros (Hlen & Hd).
      destruct (runWinnerTimestampsMode_valid Date_parse inputs timestamps)
        as (intervals & m & s & Hrun).
      { constructor; [exact Hts | exact Hlen | right; exact Hd]. }
      rewrite (run_output _ _ _ _ _ Hrun). exact I. }
  split; [exact Hok|]. split.
  - rewrite <- Hok. destruct (runWinnerTimestampsMode Date_parse inputs);
      simpl; tauto.
  - intros Hlen. split.
    + intros bare Hbare _ Hnone.
      apply (run_parse_error _ _ _ _ Hts Hlen).
      apply parse_invalid_format; [exact Hlen | exact Hhms |].
      apply (allDefined_None Date_parse timestamps bare Hbare Hnone).
    + intros parsed Hd Hs.
      apply (run_parse_error _ _ _ _ Hts Hlen).
      apply (parse_unordered _ _ parsed); assumption.
Qed.

(** The bare time 12:10 followed by a date-time is rejected with the format
    error. *)
Lemma date_times_must_all_parse_and_increase_witness :
  runWinnerTimestampsMode sampleHost mixedFormats = Err invalidFormat.
Proof.
  assert (Hfails : exists entry,
             In entry ["12:10"; "2024-05-04T12:00:00Z"]%string /\
             parseHmsToSeconds entry = None).
  { exists "2024-05-04T12:00:00Z"%string. split; [simpl; auto | reflexivity]. }
  destruct (date_times_must_all_parse_and_increase sampleHost mixedFormats
              ["12:10"; "2024-05-04T12:00:00Z"]%string eq_refl Hfails)
    as (_ & _ & Herrors).
  assert (Hlen : (2 <= List.length ["12:10"; "2024-05-04T12:00:00Z"]%string)%nat)
    by (simpl; lia).
  destruct (Herrors Hlen) as [Hmixed _].
  apply (Hmixed "12:10"%string).
  - simpl. auto.
  - simpl. discriminate.
  - reflexivity.
Defined.

(** ** Both modes *)







(** * Part IV: further properties of the engine *)

(** ** Numbers *)

Lemma round_le_1 (x : R) (d : nat) : x <= 1 -> round x d <= 1.
Proof.
  intros H. apply Rle_trans with (round 1 d).
  - apply round_mono. exact H.
  - rewrite round_1. lra.
Qed.

Lemma clamp_mono (v1 v2 low high : R) :
  v1 <= v2 -> clamp v1 low high <= clamp v2 low high.
Proof.
  intros H. unfold clamp. apply Rle_max_compat_l. apply Rle_min_compat_l. exact H.
Qed.

Lemma ln_2_lt_1 : ln 2 < 1.
Proof.
  rewrite <- (ln_exp 1). apply ln_increasing; [lra|].
  pose proof (exp_ineq1 1). lra.
Qed.

Lemma ln_half : ln (1 - 0.5) = - ln 2.
Proof.
  replace (1 - 0.5) with (/ 2) by lra. apply ln_Rinv. lra.
Qed.

Lemma ln_quarter : ln (1 - 0.75) = - (2 * ln 2).
Proof.
  replace (1 - 0.75) with (/ 2 * / 2) by lra.
  rewrite ln_mult by lra. rewrite ln_Rinv by lra. lra.
Qed.



(** ** Mean and sample standard deviation *)

Lemma sum_bounds (values : list R) (lo hi : R) :
  Forall (fun v => lo <= v <= hi) values ->
  INR (List.length values) * lo <= sum values <= INR (List.length values) * hi.
Proof.
  intros Hall. induction Hall as [|v rest Hv Hrest IH].
  - unfold sum. simpl. lra.
  - rewrite sum_cons. change (List.length (v :: rest)) with (S (List.length rest)).
    rewrite S_INR. lra.
Qed.

Lemma sum_map_shift (values : list R) (c : R) :
  sum (map (fun v => v + c) values) = sum values + INR (List.length values) * c.
Proof.
  induction values as [|v rest IH].
  - unfold sum. simpl. lra.
  - change (map (fun v0 => v0 + c) (v :: rest))
      with ((v + c) :: map (fun v0 => v0 + c) rest).
    rewrite !sum_cons, IH.
    change (List.length (v :: rest)) with (S (List.length rest)).
    rewrite S_INR. lra.
Qed.

Lemma squares_shift (values : list R) (m c acc : R) :
  fold_left (fun a v => a + (v - (m + c)) ^ 2) (map (fun v => v + c) values) acc =
  fold_left (fun a v => a + (v - m) ^ 2) values acc.
Proof.
  revert acc. induction values as [|v rest IH]; intros acc; simpl; [reflexivity|].
  rewrite <- IH. f_equal. lra.
Qed.

Lemma sum_repeat (c : R) (n : nat) : sum (repeat c n) = INR n * c.
Proof.
  induction n as [|n IH].
  - unfold sum. simpl. lra.
  - change (repeat c (S n)) with (c :: repeat c n).
    rewrite sum_cons, IH, S_INR. lra.
Qed.

Lemma squares_repeat (c : R) (n : nat) (acc : R) :
  fold_left (fun a v => a + (v - c) ^ 2) (repeat c n) acc = acc.
Proof.
  revert acc. induction n as [|n IH]; intros acc; simpl; [reflexivity|].
  rewrite IH. lra.
Qed.



(** X4. [sampleStd] never raises and is never negative; on the empty list,
    where [mean] raises, and on a single value it is 0. *)
Theorem sampleStd_never_fails (values : list R) :
  (exists s, sampleStd values = Ok s /\ 0 <= s) /\
  sampleStd [] = Ok 0 /\
  (forall v, sampleStd [v] = Ok 0).
Proof.
  split; [|split; [reflexivity | intros v; reflexivity]].
  destruct values as [|v rest].
  - exists 0. split; [reflexivity | lra].
  - apply sampleStd_Ok. discriminate.
Qed.



(** ** Wait distributions *)


(** X8. In the exponential model the expected wait is the mean interval
    and the estimates are ordered [0 <= p50 <= p75 <= p90] with the median
    below the expected wait, after rounding. *)
Theorem expWaitStats_ordered (meanIntervalMinutes : R) :
  let w := expWaitStats meanIntervalMinutes in
  expected_wait_to_next_winner w = mean_interval_between_winners w /\
  0 <= p50_wait_to_next_winner w /\
  p50_wait_to_next_winner w <= expected_wait_to_next_winner w /\
  p50_wait_to_next_winner w <= p75_wait_to_next_winner w /\
  p75_wait_to_next_winner w <= p90_wait_to_next_winner w.
Proof.
  cbv zeta. unfold expWaitStats. simpl.
  assert (Hm : 0 < Rmax meanIntervalMinutes EPSILON).
  { apply Rlt_le_trans with EPSILON; [apply EPSILON_pos | apply Rmax_r]. }
  set (m := Rmax meanIntervalMinutes EPSILON) in *.
  assert (H50 : ln (1 - 0.5) = - ln 2) by apply ln_half.
  assert (H2 : 0 < ln 2) by (rewrite <- ln_1; apply ln_increasing; lra).
  pose proof ln_2_lt_1 as H21.
  assert (H75 : ln (1 - 0.75) < ln (1 - 0.5)) by (apply ln_increasing; lra).
  assert (H90 : ln (1 - 0.9) < ln (1 - 0.75)) by (apply ln_increasing; lra).
  split; [reflexivity|].
  split; [apply round_nonneg; rewrite H50; nra|].
  split; [apply round_mono; rewrite H50; nra|].
  split; apply round_mono; nra.
Qed.

(** ** Probabilities *)

Lemma probabilityWithinExponential_bounds m w :
  0 <= w -> 0 <= probabilityWithinExponential m w <= 1.
Proof.
  intros Hw. unfold probabilityWithinExponential.
  destruct (Num.leb m 0) eqn:E; [lra|]. apply NumFacts.leb_false in E.
  pose proof (exp_pos (- w / m)) as Hpos.
  assert (exp (- w / m) <= 1).
  { rewrite <- exp_0. destruct (Req_dec w 0) as [->|Hne].
    - replace (- 0 / m) with 0 by (field; lra). lra.
    - left. apply exp_increasing.
      apply Rmult_lt_reg_r with m; [lra|].
      replace (- w / m * m) with (- w) by (field; lra). lra. }
  lra.
Qed.

Lemma probabilityWithinExponential_quantile (m q : R) :
  0 < m -> 0 < q < 1 ->
  probabilityWithinExponential m (- m * ln (1 - q)) = q.
Proof.
  intros Hm Hq. unfold probabilityWithinExponential. decide_num.
  replace (- (- m * ln (1 - q)) / m) with (ln (1 - q)) by (field; lra).
  rewrite exp_ln by lra. lra.
Qed.



(** X10. For non-negative waits the exponential probability of a winner
    within a wait lies in [[0, 1]] and does not decrease when the wait
    grows. *)
Theorem probabilityWithinExponential_monotone (meanInterval wait1 wait2 : R) :
  0 <= wait1 <= wait2 ->
  0 <= probabilityWithinExponential meanInterval wait1 /\
  probabilityWithinExponential meanInterval wait1
    <= probabilityWithinExponential meanInterval wait2 /\
  probabilityWithinExponential meanInterval wait2 <= 1.
Proof.
  intros [H0 Hw].
  split; [apply probabilityWithinExponential_bounds; exact H0|].
  split; [|apply probabilityWithinExponential_bounds; lra].
  unfold probabilityWithinExponential.
  destruct (Num.leb meanInterval 0) eqn:E; [lra|].
  apply NumFacts.leb_false in E.
  assert (exp (- wait2 / meanInterval) <= exp (- wait1 / meanInterval)).
  { destruct (Req_dec wait1 wait2) as [->|Hne]; [lra|].
    left. apply exp_increasing.
    apply Rmult_lt_compat_r; [apply Rinv_0_lt_compat; exact E | lra]. }
  lra.
Qed.

(** Waits of 2 and 5 minutes with a mean interval of 10. *)
Lemma probabilityWithinExponential_monotone_witness :
  0 <= probabilityWithinExponential 10 2 /\
  probabilityWithinExponential 10 2 <= probabilityWithinExponential 10 5 /\
  probabilityWithinExponential 10 5 <= 1.
Proof. apply probabilityWithinExponential_monotone. lra. Defined.



(** ** The parser of bare times of day *)

Lemma isDigit_value (c : ascii) :
  isDigit c = true -> (0 <= Z.of_nat (nat_of_ascii c) - 48 <= 9)%Z.
Proof.
  unfold isDigit. rewrite andb_true_iff, !Z.leb_le. lia.
Qed.

Lemma Number_one_digit (c : ascii) :
  isDigit c = true -> (0 <= Number [c] <= 9)%Z.
Proof. intros H. apply isDigit_value in H. unfold Number. cbn [fold_left]. lia. Qed.

Lemma Number_two_digits (c1 c2 : ascii) :
  isDigit c1 = true -> isDigit c2 = true -> (0 <= Number [c1; c2] <= 99)%Z.
Proof.
  intros H1 H2. apply isDigit_value in H1, H2. unfold Number. cbn [fold_left]. lia.
Qed.

Lemma string_length_chars (s : string) :
  String.length s = List.length (list_ascii_of_string s).
Proof. induction s as [|c s IH]; simpl; [reflexivity | rewrite IH; reflexivity]. Qed.

(** The tail of a match after the hour group: minutes, and seconds if any. *)
Lemma afterHour_groups (hour rest : list ascii) g1 g2 g3 :
  match rest with
  | [m1; m2] =>
      if isDigit m1 && isDigit m2 then Some (hour, [m1; m2], None) else None
  | [m1; m2; c; s1; s2] =>
      if isDigit m1 && isDigit m2 && isColon c && isDigit s1 && isDigit s2
      then Some (hour, [m1; m2], Some [s1; s2])
      else None
  | _ => None
  end = Some (g1, g2, g3) ->
  g1 = hour /\ (0 <= Number g2 <= 99)%Z /\
  match g3 with
  | Some g => (0 <= Number g <= 99)%Z /\ List.length rest = 5%nat
  | None => List.length rest = 2%nat
  end.
Proof.
  destruct rest as [|m1 [|m2 [|c [|s1 [|s2 [|x rest']]]]]]; try discriminate.
  - destruct (isDigit m1) eqn:D1; [|discriminate].
    destruct (isDigit m2) eqn:D2; [|discriminate]. simpl.
    intros H. inversion H. subst.
    split; [reflexivity|]. split; [apply Number_two_digits; assumption|].
    reflexivity.
  - destruct (isDigit m1) eqn:D1; [|discriminate].
    destruct (isDigit m2) eqn:D2; [|discriminate].
    destruct (isColon c); [|discriminate].
    destruct (isDigit s1) eqn:D3; [|discriminate].
    destruct (isDigit s2) eqn:D4; [|discriminate]. simpl.
    intros H. inversion H. subst.
    split; [reflexivity|]. split; [apply Number_two_digits; assumption|].
    split; [apply Number_two_digits; assumption | reflexivity].
Qed.

Lemma matchHMS_RE_groups (timestamp : string) g1 g2 g3 :
  matchHMS_RE timestamp = Some (g1, g2, g3) ->
  (0 <= Number g1 <= 99)%Z /\ (0 <= Number g2 <= 99)%Z /\
  match g3 with
  | Some g => (0 <= Number g <= 99)%Z /\
              (String.length timestamp = 7 \/ String.length timestamp = 8)%nat
  | None => (String.length timestamp = 4 \/ String.length timestamp = 5)%nat
  end.
Proof.
  unfold matchHMS_RE. rewrite string_length_chars.
  destruct (list_ascii_of_string timestamp) as [|h1 [|c2 rest]];
    try discriminate.
  destruct (isDigit h1) eqn:D1; simpl andb.
  - destruct (isColon c2) eqn:C2.
    + intros H. apply afterHour_groups in H. destruct H as (-> & H2 & H3).
      split; [pose proof (Number_one_digit h1 D1); lia|]. split; [exact H2|].
      destruct g3 as [g|].
      * destruct H3 as [H3 Hlen]. split; [exact H3|]. simpl. left. lia.
      * simpl. left. lia.
    + destruct rest as [|c3 rest']; [discriminate|].
      destruct (isDigit c2) eqn:D2; [|discriminate].
      destruct (isColon c3); [|discriminate]. simpl andb.
      intros H. apply afterHour_groups in H. destruct H as (-> & H2 & H3).
      split; [apply Number_two_digits; assumption|]. split; [exact H2|].
      destruct g3 as [g|].
      * destruct H3 as [H3 Hlen]. split; [exact H3|]. simpl. right. lia.
      * simpl. right. lia.
  - destruct rest as [|c3 rest']; discriminate.
Qed.

Lemma parseHmsToSeconds_bounds (timestamp : string) (seconds : Z) :
  parseHmsToSeconds timestamp = Some seconds ->
  (0 <= seconds < 86400)%Z.
Proof.
  unfold parseHmsToSeconds.
  destruct (matchHMS_RE timestamp) as [[[g1 g2] g3]|] eqn:Hm; [|discriminate].
  apply matchHMS_RE_groups in Hm. destruct Hm as (H1 & H2 & H3).
  assert (H3' : (0 <= match g3 with Some g => Number g | None => Number ["0"%char] end)%Z).
  { destruct g3 as [g|]; [lia | unfold Number; simpl; lia]. }
  set (second := match g3 with Some g => Number g | None => Number ["0"%char] end) in *.
  destruct (Z.ltb (Number g1) 0) eqn:E1; [discriminate|].
  destruct (Z.ltb 23 (Number g1)) eqn:E2; [discriminate|].
  destruct (Z.ltb (Number g2) 0) eqn:E3; [discriminate|].
  destruct (Z.ltb 59 (Number g2)) eqn:E4; [discriminate|].
  destruct (Z.ltb second 0) eqn:E5; [discriminate|].
  destruct (Z.ltb 59 second) eqn:E6; [discriminate|]. simpl.
  apply Z.ltb_ge in E2, E4, E6.
  intros H. inversion H. lia.
Qed.

(** X12. A string that [parseHmsToSeconds] accepts denotes a second of
    the day, from 0 to 86399, and has 4, 5, 7 or 8 characters. *)
Theorem parseHmsToSeconds_range (timestamp : string) (seconds : Z) :
  parseHmsToSeconds timestamp = Some seconds ->
  (0 <= seconds < 24 * 3600)%Z /\
  (4 <= String.length timestamp <= 8)%nat /\
  String.length timestamp <> 6%nat.
Proof.
  intros H. split; [apply (parseHmsToSeconds_bounds timestamp); exact H|].
  unfold parseHmsToSeconds in H.
  destruct (matchHMS_RE timestamp) as [[[g1 g2] g3]|] eqn:Hm; [|discriminate].
  apply matchHMS_RE_groups in Hm. destruct Hm as (_ & _ & H3).
  destruct g3 as [g|]; [destruct H3 as [_ H3]|]; lia.
Qed.

(** The string 23:58 is accepted as second 86280. *)
Lemma parseHmsToSeconds_range_witness :
  (0 <= 86280 < 24 * 3600)%Z /\
  (4 <= String.length "23:58" <= 8)%nat /\
  String.length "23:58" <> 6%nat.
Proof. apply (parseHmsToSeconds_range "23:58" 86280). reflexivity. Defined.

(** ** Timelines *)

Lemma rollover_id (candidate current : Z) :
  (current < candidate)%Z -> rollover candidate current = candidate.
Proof.
  intros H. destruct (rollover_spec candidate current) as (k & Hk & _ & Hmin).
  destruct k as [|k]; [lia|].
  specialize (Hmin 0%nat ltac:(lia)). lia.
Qed.

Lemma rollover_within_a_day (candidate current : Z) :
  (0 <= current)%Z -> (0 <= candidate < 86400)%Z ->
  (current < rollover candidate current <= current + 86400)%Z.
Proof.
  intros Hc Hr. destruct (rollover_spec candidate current) as (k & Hk & Hgt & Hmin).
  split; [exact Hgt|]. destruct k as [|k].
  - lia.
  - specialize (Hmin k ltac:(lia)). lia.
Qed.

Lemma allDefined_Forall {A B} (f : A -> option B) (P : B -> Prop)
    (values : list A) (results : list B) :
  (forall a b, f a = Some b -> P b) ->
  allDefined (map f values) = Some results -> Forall P results.
Proof.
  intros Hf. revert results. induction values as [|a rest IH]; intros results; simpl.
  - intros H. inversion H. constructor.
  - destruct (f a) as [b|] eqn:Hb; [|discriminate].
    destruct (allDefined (map f rest)) as [bs|]; [|discriminate].
    intros H. inversion H. constructor; [apply (Hf a); exact Hb | apply IH; reflexivity].
Qed.

Lemma absoluteSecondsFrom_gaps (rest : list Z) (current : Z) :
  (0 <= current)%Z ->
  Forall (fun raw => (0 <= raw < 86400)%Z) rest ->
  Forall (fun interval => 0 < interval <= 1440)
    (intervalsFromTimelineMinutes
       (map (fun seconds => IZR seconds / 60)
          (current :: absoluteSecondsFrom current rest))).
Proof.
  intros Hc Hall. revert current Hc.
  induction Hall as [|raw rest Hraw Hrest IH]; intros current Hc.
  - constructor.
  - pose proof (rollover_within_a_day raw current Hc Hraw) as [Hlo Hhi].
    change (absoluteSecondsFrom current (raw :: rest))
      with (rollover raw current
            :: absoluteSecondsFrom (rollover raw current) rest).
    change (intervalsFromTimelineMinutes
              (map (fun seconds => IZR seconds / 60)
                 (current :: rollover raw current
                  :: absoluteSecondsFrom (rollover raw current) rest)))
      with ((IZR (rollover raw current) / 60 - IZR current / 60)
            :: intervalsFromTimelineMinutes
                 (map (fun seconds => IZR seconds / 60)
                    (rollover raw current
                     :: absoluteSecondsFrom (rollover raw current) rest))).
    constructor; [|apply IH; lia].
    apply IZR_lt in Hlo. apply IZR_le in Hhi. rewrite plus_IZR in Hhi. lra.
Qed.

Lemma absoluteSecondsFrom_sorted_id (rest : list Z) (current : Z) :
  Sorted Z.lt (current :: rest) -> absoluteSecondsFrom current rest = rest.
Proof.
  revert current. induction rest as [|raw rest IH]; intros current Hs; [reflexivity|].
  inversion Hs as [|? ? Hs' Hhd]. subst. inversion Hhd. subst.
  simpl. rewrite rollover_id by assumption. rewrite IH by exact Hs'. reflexivity.
Qed.

Lemma intervals_sum (first : R) (rest : list R) :
  sum (intervalsFromTimelineMinutes (first :: rest)) = last (first :: rest) 0 - first.
Proof.
  revert first. induction rest as [|next rest IH]; intros first.
  - unfold sum. simpl. lra.
  - change (intervalsFromTimelineMinutes (first :: next :: rest))
      with ((next - first) :: intervalsFromTimelineMinutes (next :: rest)).
    rewrite sum_cons, IH.
    change (last (first :: next :: rest) 0) with (last (next :: rest) 0). lra.
Qed.

Lemma parse_Err Date_parse timestamps message :
  (2 <= List.length timestamps)%nat ->
  parseTimestampsToMonotonicMinutes Date_parse timestamps = Err message ->
  message = invalidFormat \/ message = unorderedDates.
Proof.
  intros Hlen. unfold parseTimestampsToMonotonicMinutes.
  rewrite (proj2 (Nat.leb_le _ _) Hlen). simpl.
  destruct (allDefined (map parseHmsToSeconds timestamps)); [discriminate|].
  destruct (allDefined (map Date_parse timestamps)) as [parsed|].
  - destruct (strictlyIncreasing parsed); simpl; [discriminate|].
    intros H. inversion H. right. reflexivity.
  - intros H. inversion H. left. reflexivity.
Qed.





(** X15. Bare times of day that already increase are left as they are:
    no sample is moved to a later day. *)
Theorem increasing_bare_times_unchanged (hmsSeconds : list Z) :
  Sorted Z.lt hmsSeconds -> absoluteSeconds hmsSeconds = hmsSeconds.
Proof.
  intros Hs. destruct hmsSeconds as [|first rest]; [reflexivity|].
  unfold absoluteSeconds. rewrite absoluteSecondsFrom_sorted_id by exact Hs.
  reflexivity.
Qed.

(** The samples 10:00, 10:10 and 10:30, in seconds. *)
Lemma increasing_bare_times_unchanged_witness :
  absoluteSeconds [36000; 36600; 37800]%Z = [36000; 36600; 37800]%Z.
Proof.
  apply increasing_bare_times_unchanged.
  repeat constructor.
Defined.



(** ** Mode A *)

Lemma positiveNumber_Err (x : option R) (message other : string) :
  positiveNumber x message = Err other ->
  other = message /\ ~ (exists v, x = Some v /\ 0 < v).
Proof.
  unfold positiveNumber. destruct x as [v|].
  - destruct (Num.ltb 0 v) eqn:E; [discriminate|].
    apply NumFacts.ltb_false in E. intros H. inversion H.
    split; [reflexivity|]. intros (w & Hw & Hpos). inversion Hw. subst. lra.
  - intros H. inversion H. split; [reflexivity|].
    intros (w & Hw & _). discriminate.
Qed.

Lemma confidenceBuffer_bounds inputs :
  0 <= PurchaseRate.confidenceBuffer inputs <= 0.9.
Proof. unfold PurchaseRate.confidenceBuffer. apply clamp_bounds. lra. Qed.

Lemma laneScale_ge_1 inputs m l : 0 < l -> 1 <= PurchaseRate.laneScale inputs m l.
Proof.
  intros Hl. unfold PurchaseRate.laneScale.
  destruct m; [|lra]. destruct (total_open_lanes inputs) as [total|]; [|lra].
  destruct (Num.leb l total) eqn:E; [|lra].
  apply NumFacts.leb_true in E.
  apply Rmult_le_reg_r with l; [exact Hl|].
  unfold Rdiv. rewrite Rmult_assoc, Rinv_l by lra. lra.
Qed.

Lemma lambdaEstimated_pos inputs m p mi l :
  0 < p -> 0 < mi -> 0 < l -> 0 < PurchaseRate.lambdaEstimated inputs m p mi l.
Proof.
  intros Hp Hmi Hl. unfold PurchaseRate.lambdaEstimated, PurchaseRate.lambdaObserved.
  assert (Hobs : 0 < p / mi) by (apply Rdiv_lt_0_compat; assumption).
  destruct m.
  - pose proof (laneScale_ge_1 inputs global l Hl). nra.
  - apply Rdiv_lt_0_compat; assumption.
Qed.

Lemma PurchaseRate_probability_bounds inputs b m p mi l :
  0 <= PurchaseRate.probabilityWithinOptimal inputs b m p mi l <= 1.
Proof. rewrite PurchaseRate_probability_formula. apply clamp_bounds. lra. Qed.

(** X17. When mode A raises, its message names the first assertion that
    fails, in the order day flag, model, purchases, minutes, lanes: every
    assertion before it holds. *)
Theorem purchase_rate_reports_first_failure inputs message :
  runPurchaseRateMode inputs = Err message ->
  let positive x := exists v : R, x = Some v /\ 0 < v in
  (message = "is_weekend_or_holiday es obligatorio en mode=purchase_rate."%string /\
   is_weekend_or_holiday inputs = None) \/
  (message = "model invalido."%string /\
   is_weekend_or_holiday inputs <> None /\ model inputs = None) \/
  (message = "observed_purchases debe ser > 0."%string /\
   is_weekend_or_holiday inputs <> None /\ model inputs <> None /\
   ~ positive (observed_purchases inputs)) \/
  (message = "observed_minutes debe ser > 0."%string /\
   is_weekend_or_holiday inputs <> None /\ model inputs <> None /\
   positive (observed_purchases inputs) /\
   ~ positive (observed_minutes inputs)) \/
  (message = "observed_lanes debe ser > 0."%string /\
   is_weekend_or_holiday inputs <> None /\ model inputs <> None /\
   positive (observed_purchases inputs) /\
   positive (observed_minutes inputs) /\
   ~ positive (observed_lanes inputs)).
Proof.
  unfold runPurchaseRateMode. cbv zeta.
  destruct (is_weekend_or_holiday inputs) as [b|]; simpl.
  2:{ intros H. inversion H. left. auto. }
  destruct (model inputs) as [m|]; simpl.
  2:{ intros H. inversion H. right. left. repeat split; discriminate. }
  destruct (positiveNumber (observed_purchases inputs) _) as [p|e] eqn:Hp; simpl.
  2:{ intros H. inversion H. subst e. apply positiveNumber_Err in Hp.
      destruct Hp as [-> Hp]. right. right. left.
      repeat split; try discriminate. exact Hp. }
  apply positiveNumber_Ok in Hp.
  destruct (positiveNumber (observed_minutes inputs) _) as [mi|e] eqn:Hmi; simpl.
  2:{ intros H. inversion H. subst e. apply positiveNumber_Err in Hmi.
      destruct Hmi as [-> Hmi]. right. right. right. left.
      repeat split; try discriminate; [exists p; exact Hp | exact Hmi]. }
  apply positiveNumber_Ok in Hmi.
  destruct (positiveNumber (observed_lanes inputs) _) as [l|e] eqn:Hl; simpl.
  2:{ intros H. inversion H. subst e. apply positiveNumber_Err in Hl.
      destruct Hl as [-> Hl]. right. right. right. right.
      repeat split; try discriminate;
        [exists p; exact Hp | exists mi; exact Hmi | exact Hl]. }
  discriminate.
Qed.

Lemma scenario1_without_lanes_rejected :
  runPurchaseRateMode scenario1_without_lanes
  = Err "observed_lanes debe ser > 0.".
Proof.
  unfold runPurchaseRateMode, positiveNumber. simpl. decide_num. simpl.
  decide_num. reflexivity.
Qed.

(** Scenario 1 with [observed_lanes = 0] is rejected for its lanes. *)
Lemma purchase_rate_reports_first_failure_witness :
  ~ (exists v : R, observed_lanes scenario1_without_lanes = Some v /\ 0 < v).
Proof.
  destruct (purchase_rate_reports_first_failure scenario1_without_lanes _
              scenario1_without_lanes_rejected)
    as [[H _]|[[H _]|[[H _]|[[H _]|(_ & _ & _ & _ & _ & H)]]]];
    try discriminate H.
  exact H.
Defined.



(** X19. With the same observations, the mean interval between winners on
    a weekend or holiday is twice the weekday one. *)
Theorem weekend_doubles_mean_interval inputs m p mi l :
  PurchaseRate.meanInterval inputs true m p mi l =
  2 * PurchaseRate.meanInterval inputs false m p mi l.
Proof.
  unfold PurchaseRate.meanInterval, PurchaseRate.kThreshold, thresholdFromDay.
  assert (0 < Rmax (PurchaseRate.lambdaConservative inputs m p mi l) EPSILON).
  { apply Rlt_le_trans with EPSILON; [apply EPSILON_pos | apply Rmax_r]. }
  field. lra.
Qed.





(** X22. For every valid input of mode A the threshold [K] is 50 on a
    weekend or holiday and 25 otherwise, and the reported win probability
    per attempt is exactly [1 / K]: rounding to four decimals does not
    change it. *)
Theorem threshold_and_win_probability inputs b m p mi l :
  ValidPurchaseRate inputs b m p mi l ->
  exists o,
    runPurchaseRateMode inputs = Ok o /\
    k_threshold_clients o = Some (if b then 50 else 25) /\
    probability_win_per_attempt o = Some (1 / (if b then 50 else 25)).
Proof.
  intros Hv. eexists.
  split; [apply runPurchaseRateMode_valid; exact Hv|].
  unfold PurchaseRate.output.
  destruct (withEconomics_preserves
              (PurchaseRate.result_ inputs b m p mi l)
              (expected_bonus_value inputs) (time_value_per_minute inputs)
              (PurchaseRate.probabilityWithinOptimal inputs b m p mi l)
              (PurchaseRate.meanInterval inputs b m p mi l) (maxWait inputs))
    as (_ & Hk & Hw & _).
  rewrite Hk, Hw. simpl.
  unfold PurchaseRate.kThreshold, thresholdFromDay.
  split; [reflexivity|]. f_equal. destruct b.
  - rewrite (round_eq _ _ 200%Z) by (simpl; lra). simpl. lra.
  - rewrite (round_eq _ _ 400%Z) by (simpl; lra). simpl. lra.
Qed.

(** Scenario 1 is a weekend. *)
Lemma threshold_and_win_probability_witness :
  exists o,
    runPurchaseRateMode scenario1 = Ok o /\
    k_threshold_clients o = Some 50 /\
    probability_win_per_attempt o = Some (1 / 50).
Proof.
  exact (threshold_and_win_probability scenario1 true global 5 2 5 scenario1_valid).
Defined.

(** ** Mode B *)

Lemma WinnerTimestamps_probability_bounds inputs m s :
  0 <= WinnerTimestamps.probabilityWithinOptimal inputs m s <= 1.
Proof.
  assert (Hreg : 0 <= WinnerTimestamps.regularProbability inputs m s <= 1).
  { unfold WinnerTimestamps.regularProbability.
    destruct (Num.leb _ _); [lra | apply clamp_bounds; lra]. }
  assert (Hrand : 0 <= WinnerTimestamps.randomProbability inputs m s <= 1).
  { unfold WinnerTimestamps.randomProbability.
    apply probabilityWithinExponential_bounds.
    apply WinnerTimestamps_optimalWait_bounds. }
  unfold WinnerTimestamps.probabilityWithinOptimal.
  destruct (WinnerTimestamps.cadenceModel m s); lra.
Qed.

Lemma burstAnnouncements_run Date_parse :
  CadenceRun Date_parse burstAnnouncements
    (intervalsFromTimelineMinutes burstAnnouncements_timeline) 4 (sqrt 27).
Proof.
  apply CadenceRun_of_timeline
    with (timestamps := ["10:00"; "10:01"; "10:02"; "10:12"]%string).
  - reflexivity.
  - rewrite (parse_hms Date_parse _ [36000; 36060; 36120; 36720]%Z);
      [reflexivity | simpl; lia | reflexivity].
  - unfold mean, sum. simpl. f_equal. lra.
  - unfold sampleStd, mean, sum. simpl. f_equal. f_equal. lra.
Qed.

Lemma burstAnnouncements_valid Date_parse :
  ValidTimestamps Date_parse burstAnnouncements
    ["10:00"; "10:01"; "10:02"; "10:12"]%string.
Proof.
  constructor; [reflexivity | simpl; lia |].
  left. exists [36000; 36060; 36120; 36720]%Z. reflexivity.
Qed.

Lemma burstAnnouncements_cv : 0.7 < sqrt 27 / Rmax 4 EPSILON.
Proof.
  unfold EPSILON. rewrite Rmax_left by lra.
  assert (5 <= sqrt 27).
  { apply Rle_trans with (sqrt (5 * 5)).
    - rewrite sqrt_square by lra. lra.
    - apply sqrt_le_1_alt. lra. }
  lra.
Qed.





(** X25. Mode B raises only three messages: too few timestamps, invalid
    format, and unordered date-times.  The length check of the parser and
    the empty-list check of [mean] never reach the caller. *)
Theorem timestamp_mode_error_messages Date_parse inputs message :
  runWinnerTimestampsMode Date_parse inputs = Err message ->
  message =
    "winner_timestamps debe tener al menos 2 elementos en mode=winner_timestamps."%string
  \/ message = invalidFormat \/ message = unorderedDates.
Proof.
  intros H.
  destruct (winner_timestamps inputs) as [ts|] eqn:Hts.
  2:{ unfold runWinnerTimestampsMode in H. rewrite Hts in H. inversion H. auto. }
  destruct (Nat.leb 2 (List.length ts)) eqn:Hlen.
  2:{ unfold runWinnerTimestampsMode in H. rewrite Hts, Hlen in H.
      inversion H. auto. }
  apply Nat.leb_le in Hlen.
  destruct (parseTimestampsToMonotonicMinutes Date_parse ts)
    as [timeline|e] eqn:Hparse.
  - exfalso. destruct (parse_Ok _ _ _ Hparse) as (_ & _ & _ & Hfmt).
    destruct (runWinnerTimestampsMode_valid Date_parse inputs ts)
      as (intervals & m & s & Hrun).
    { constructor; assumption. }
    rewrite (run_output _ _ _ _ _ Hrun) in H. discriminate.
  - rewrite (run_parse_error _ _ _ _ Hts Hlen Hparse) in H. inversion H. subst e.
    right. apply (parse_Err Date_parse ts); assumption.
Qed.

(** A bare time mixed with a date-time raises the second message. *)
Lemma timestamp_mode_error_messages_witness :
  invalidFormat =
    "winner_timestamps debe tener al menos 2 elementos en mode=winner_timestamps."%string
  \/ invalidFormat = invalidFormat \/ invalidFormat = unorderedDates.
Proof.
  apply (timestamp_mode_error_messages sampleHost mixedFormats).
  apply (run_parse_error _ _ ["12:10"; "2024-05-04T12:00:00Z"]%string).
  - reflexivity.
  - simpl. lia.
  - apply parse_invalid_format; [simpl; lia | reflexivity | reflexivity].
Defined.

(** ** Both modes *)

Lemma withEconomics_values base bonus timeValue probability interval maxW e :
  economics base = None ->
  0 <= probability ->
  0 <= optimal_wait_minutes (recommendation base) ->
  0 <= maxW ->
  economics (withEconomics base bonus timeValue probability interval maxW)
    = Some e ->
  0 <= expected_value_for_optimal_wait e /\
  0 <= expected_time_cost_for_optimal_wait e /\
  0 <= value_expected_per_minute e /\
  0 <= break_even_wait_minutes e <= round maxW 2.
Proof.
  intros Hbase Hp Hw Hm. unfold withEconomics.
  destruct bonus as [b|]; [|congruence].
  destruct timeValue as [t|]; [|congruence].
  destruct (Num.ltb b 0) eqn:Eb; [simpl; congruence|].
  destruct (Num.ltb t 0) eqn:Et; [simpl; congruence|].
  apply NumFacts.ltb_false in Eb, Et. simpl.
  intros H. inversion H. simpl.
  assert (He : 0 < Rmax interval EPSILON).
  { apply Rlt_le_trans with EPSILON; [apply EPSILON_pos | apply Rmax_r]. }
  split; [apply round_nonneg; apply Rmult_le_pos; assumption|].
  split; [apply round_nonneg; apply Rmult_le_pos; assumption|].
  split.
  { apply round_nonneg. apply Rmult_le_pos; [exact Eb|].
    left. apply Rinv_0_lt_compat. exact He. }
  destruct (Num.eqb t 0).
  - split; [apply round_nonneg; exact Hm | lra].
  - pose proof (clamp_bounds (b / t) 0 maxW Hm) as [Hlo Hhi].
    split; [apply round_nonneg; exact Hlo | apply round_mono; exact Hhi].
Qed.

Lemma output_blocks Date_parse inputs :
  ValidInput Date_parse inputs ->
  exists base probability interval,
    run Date_parse inputs =
      Ok (withEconomics base (expected_bonus_value inputs)
            (time_value_per_minute inputs) probability interval
            (maxWait inputs)) /\
    economics base = None /\
    0 <= probability <= 1 /\
    out_mode base = mode inputs /\
    waitLowerBound (mode inputs) <= optimal_wait_minutes (recommendation base) /\
    probability_next_winner_within_optimal_wait (recommendation base)
      = round probability 4 /\
    k_threshold_clients base
      = option_map thresholdFromDay (is_weekend_or_holiday inputs) /\
    (rates base <> None <-> mode inputs = mode_purchase_rate) /\
    (cadence_analysis base <> None <-> mode inputs = mode_winner_timestamps).
Proof.
  intros Hv.
  destruct (run_valid _ _ Hv)
    as [(b & m & p & mi & l & Hmode & Hvalid & Hrun)
       |(intervals & m & s & Hmode & Hc & Hrun)].
  - exists (PurchaseRate.result_ inputs b m p mi l),
      (PurchaseRate.probabilityWithinOptimal inputs b m p mi l),
      (PurchaseRate.meanInterval inputs b m p mi l).
    split; [exact Hrun|]. split; [reflexivity|].
    split; [apply PurchaseRate_probability_bounds|].
    rewrite Hmode. simpl. split; [reflexivity|].
    split; [apply round_ge_1; apply PurchaseRate_optimalWait_bounds|].
    split; [reflexivity|].
    split; [rewrite (valid_day _ _ _ _ _ _ Hvalid); reflexivity|].
    split; split; intros; congruence.
  - exists (WinnerTimestamps.result_ inputs intervals m s),
      (WinnerTimestamps.probabilityWithinOptimal inputs m s), m.
    split; [exact Hrun|]. split; [reflexivity|].
    split; [apply WinnerTimestamps_probability_bounds|].
    rewrite Hmode. simpl. split; [reflexivity|].
    split; [apply round_nonneg; apply WinnerTimestamps_optimalWait_bounds|].
    split; [reflexivity|]. split; [reflexivity|].
    split; split; intros; congruence.
Qed.





